(** * TranslucentTB: application lifecycle (application.cpp)

    A shallow embedding of [Application]: the constructor and the welcome
    flow, the main message loop [Run], the shutdown poll [Shutdown] and
    [BringWelcomeToFront].

    Calls into the operating system and into the other subsystems of the
    program are recorded as [event]s, in program order; what those calls
    answer (the wait result, the pending messages, whether a window
    agrees to close) is an input of the model.  A coroutine is embedded
    as the sequence of its statements: what follows a [co_await] runs
    after the awaited operation has completed. *)

From Stdlib Require Import ZArith List String Bool Lia.
Import ListNotations.
Local Open Scope Z_scope.

(** ** Data *)

(** [HWND], [HINSTANCE]: opaque pointers; the null pointer is 0. *)
Definition HWND := Z.
Definition HINSTANCE := Z.
Definition nullptr : Z := 0.

(** [PACKAGE_VERSION] (appmodel.h): four 16-bit fields, [Revision] first and
    [Major] last in memory, overlaid on one 64-bit [Version]. *)
Record PACKAGE_VERSION := {
  Revision : Z;
  Build : Z;
  Minor : Z;
  Major : Z
}.

(** [MSG] (WinUser.h), the fields the loop reads. *)
Record MSG := {
  hwnd : HWND;
  message : Z;
  wParam : Z;
  lParam : Z
}.

Definition WM_QUIT : Z := 0x0012.
Definition WAIT_OBJECT_0 : Z := 0.
Definition WAIT_IO_COMPLETION : Z := 0xC0.
Definition WAIT_FAILED : Z := 0xFFFFFFFF.

(** [spdlog::level::level_enum]. *)
Inductive level_enum := trace | debug | info | warn | err | critical | off.

(** [wf::IAsyncOperation<bool>]: a reference to an asynchronous operation;
    the null reference is [None]. *)
Inductive AsyncOperation := AsyncOp (id : nat).
Definition IAsyncOperation := option AsyncOperation.

Inductive xaml_startup_position := center | mouse.
Inductive page_kind := WelcomePage.
Inductive notification := IDS_WELCOME_NOTIFICATION.
Inductive PreferredAppMode := Default | AllowDark | ForceDark | ForceLight.

(** A window hosted by a XAML thread: its handle, whether it has content
    ([page()] is non-null) and what [TryClose()] answers when asked. *)
Record XamlWindow := {
  handle : HWND;
  page : bool;
  TryClose : bool
}.

(** A XAML thread with its current window ([GetCurrentWindow()], possibly
    null). *)
Record XamlThread := {
  thread_id : nat;
  GetCurrentWindow : option XamlWindow
}.

(** The queue a coroutine resumes on with [wil::resume_foreground]. *)
Inductive dispatcher :=
| ThreadDispatcher (thread : nat)
| MainDispatcherQueue.

(** ** Events *)

Inductive event :=
(* member initialisers of the constructor *)
| EvDynamicDependency (name : string) (version : PACKAGE_VERSION) (hasPackageIdentity : bool)
| EvConfigManager (storageFolder : option string) (fileExists : bool)
| EvWorker (storageFolder : option string)
| EvCreateDispatcherController
| EvCreateXamlApp
| EvCreateXamlManager
| EvMainAppWindow (hideIconOverride hasPackageIdentity : bool)
| EvXamlThreadPool
| EvPreferredAppMode (mode : PreferredAppMode)
(* the startup manager *)
| EvAcquireTask
| EvAwaitOperation (operation : AsyncOperation)
| EvAwaitStartupEnable
| EvStartupDisable
(* the welcome page *)
| EvCreateXamlWindow (kind : page_kind) (position : xaml_startup_position)
| EvRevokeClosed
| EvOpenUri (before_app_name after_app_name : string)
(* configuration and tray window *)
| EvEditConfigFile
| EvSaveConfig
| EvDeleteConfigFile
| EvRemoveHideTrayIconOverride
| EvSendNotification (id : notification)
| EvWorkerConfigurationChanged
| EvAppWindowConfigurationChanged
(* shutdown *)
| EvLock (thread : nat)
| EvUnlock (thread : nat)
| EvResumeForeground (queue : dispatcher)
| EvTryClose (window : HWND)
| EvSetForegroundWindow (window : HWND)
| EvShutdownQueueAsync
| EvPostQuitMessage (exitCode : Z)
(* message loop *)
| EvMsgWaitForMultipleObjectsEx
| EvPreTranslateMessage (msg : MSG)
| EvTranslateMessage (msg : MSG)
| EvDispatchMessage (msg : MSG)
| EvLastErrorHandle (level : level_enum) (text : string)
| EvMessagePrint (level : level_enum) (text : string).

(** ** The main message loop *)

(** [static_cast<int>(msg.wParam)]: a 64-bit unsigned value narrowed to a
    32-bit signed one. *)
Definition static_cast_int (w : Z) : Z :=
  let low := w mod 2 ^ 32 in
  if low <? 2 ^ 31 then low else low - 2 ^ 32.

(** The message [PostQuitMessage(exitCode)] puts in the queue: [WM_QUIT]
    with the [int] exit code widened to the 64-bit [WPARAM]. *)
Definition quit_message (exitCode : Z) : MSG :=
  {| hwnd := nullptr; message := WM_QUIT; wParam := exitCode mod 2 ^ 64; lParam := 0 |}.

(** One return of [MsgWaitForMultipleObjectsEx]: its value, and the
    messages [PeekMessage] then hands out, in order, until it finds the
    queue empty. *)
Record wakeup := {
  wait_result : Z;
  pending : list MSG
}.

Section MessageLoop.

(** [m_AppWindow.PreTranslateMessage]: whether the tray window consumed
    the message. *)
Variable PreTranslateMessage : MSG -> bool.

(** Lines 159-163: the body of the loop for a message that is not
    [WM_QUIT]. *)
Definition process_message (msg : MSG) : list event :=
  EvPreTranslateMessage msg ::
  (if negb (PreTranslateMessage msg)
   then [EvTranslateMessage msg; EvDispatchMessage msg]
   else []).

(** Lines 155-169: the [PeekMessage] loop.  [Some code] is the [return]
    of line 167; [None] means the queue ran empty. *)
Fixpoint peek_loop (msgs : list MSG) : list event * option Z :=
  match msgs with
  | [] => ([], None)
  | msg :: rest =>
      if negb (message msg =? WM_QUIT) then
        let (evs, r) := peek_loop rest in
        (process_message msg ++ evs, r)
      else ([], Some (static_cast_int (wParam msg)))
  end.

(** Modelled from the spec: the logging macros [LastErrorHandle] and
    [MessagePrint] of ProgramLog are missing; a failure in the main loop
    is `logged at critical severity but the loop continues rather than
    crashing', so each macro records the log entry and returns. *)
Definition LastErrorHandle (level : level_enum) (text : string) : list event :=
  [EvLastErrorHandle level text].
(** Modelled from the spec: as [LastErrorHandle], without the last-error
    code. *)
Definition MessagePrint (level : level_enum) (text : string) : list event :=
  [EvMessagePrint level text].

(** Lines 148-181.  The script lists the returns of the wait, one per
    iteration of [while (true)]; when it is exhausted the loop is still
    running (result [None]). *)
Fixpoint Run (script : list wakeup) : list event * option Z :=
  match script with
  | [] => ([], None)
  | w :: script' =>
      let continue_ (evs : list event) :=
        let (evs', r) := Run script' in
        (EvMsgWaitForMultipleObjectsEx :: evs ++ evs', r) in
      if wait_result w =? WAIT_OBJECT_0 then
        match peek_loop (pending w) with
        | (evs, Some code) => (EvMsgWaitForMultipleObjectsEx :: evs, Some code)
        | (evs, None) => continue_ evs
        end
      else if wait_result w =? WAIT_IO_COMPLETION then
        continue_ []
      else if wait_result w =? WAIT_FAILED then
        continue_ (LastErrorHandle critical "Failed to enter alertable wait state!"
                   ++ MessagePrint critical "MsgWaitForMultipleObjectsEx returned an unexpected value!")
      else
        continue_ (MessagePrint critical "MsgWaitForMultipleObjectsEx returned an unexpected value!")
  end.

End MessageLoop.

(** ** The application state and its monad *)

(** The callables handed to [DispatchToMainThread] in this file, one per
    lambda, with what each captures. *)
Inductive main_task :=
| SetWelcomePage (hwnd : HWND)          (* lines 41-44 *)
| WelcomeClosed (hasStartup : bool)     (* lines 48-59 *)
| EditConfig                            (* lines 67-70 *)
| WelcomeApproved.                      (* lines 78-84 *)

(** The handlers registered on the welcome page content.  [on_Closed] is
    [Some hasStartup] while the auto-revoked registration of line 46 is
    live; the [LicenseApproved] handler owns its revoker. *)
Record WelcomePageContent := {
  on_Closed : option bool;
  on_LiberapayOpenRequested : bool;
  on_DiscordJoinRequested : bool;
  on_ConfigEditRequested : bool;
  on_LicenseApproved : bool
}.

Definition new_content : WelcomePageContent :=
  {| on_Closed := None; on_LiberapayOpenRequested := false;
     on_DiscordJoinRequested := false; on_ConfigEditRequested := false;
     on_LicenseApproved := false |}.

Record Application := {
  m_WelcomePage : HWND;
  (** callables queued for the main thread, oldest first *)
  main_queue : list main_task;
  (** the welcome page, once its window has been built *)
  welcome : option WelcomePageContent;
  (** what [m_Xaml.GetThreads()] enumerates *)
  m_Xaml : list XamlThread
}.

Definition set_WelcomePage (h : HWND) (a : Application) : Application :=
  {| m_WelcomePage := h; main_queue := main_queue a;
     welcome := welcome a; m_Xaml := m_Xaml a |}.
Definition set_main_queue (q : list main_task) (a : Application) : Application :=
  {| m_WelcomePage := m_WelcomePage a; main_queue := q;
     welcome := welcome a; m_Xaml := m_Xaml a |}.
Definition set_welcome (c : option WelcomePageContent) (a : Application) : Application :=
  {| m_WelcomePage := m_WelcomePage a; main_queue := main_queue a;
     welcome := c; m_Xaml := m_Xaml a |}.
Definition set_Xaml (ts : list XamlThread) (a : Application) : Application :=
  {| m_WelcomePage := m_WelcomePage a; main_queue := main_queue a;
     welcome := welcome a; m_Xaml := ts |}.

(** A member function: from the object's state to a result, the new state
    and the events it caused. *)
Definition App (A : Type) : Type := Application -> A * Application * list event.

Definition ret {A} (x : A) : App A := fun a => (x, a, []).
Definition bind {A B} (m : App A) (k : A -> App B) : App B :=
  fun a =>
    let '(x, a1, e1) := m a in
    let '(y, a2, e2) := k x a1 in
    (y, a2, e1 ++ e2).
Definition emit (e : event) : App unit := fun a => (tt, a, [e]).
Definition get : App Application := fun a => (a, a, []).
Definition modify (f : Application -> Application) : App unit :=
  fun a => (tt, f a, []).

Declare Scope app_scope.
Delimit Scope app_scope with app.
Notation "x <- m ;; k" := (bind m (fun x => k))
  (at level 61, m at next level, right associativity) : app_scope.
Notation "m ;; k" := (bind m (fun _ => k))
  (at level 61, right associativity) : app_scope.
Local Open Scope app_scope.

Definition result {A} (m : App A) (a : Application) : A := fst (fst (m a)).
Definition state_after {A} (m : App A) (a : Application) : Application := snd (fst (m a)).
Definition events {A} (m : App A) (a : Application) : list event := snd (m a).

(** Modelled from the spec: [DispatchToMainThread] (application.hpp) is
    missing; dispatching `enqueues callable for execution on that thread
    and returns without blocking the caller; execution order on a given
    thread preserves enqueue order (FIFO)'. *)
Definition DispatchToMainThread (t : main_task) : App unit :=
  modify (fun a => set_main_queue (main_queue a ++ [t]) a).

(** ** Shutdown (lines 183-214) *)

(** The [for] loop of lines 186-202, carrying [canExit]. *)
Fixpoint poll_threads (threads : list XamlThread) (canExit : bool) : App bool :=
  match threads with
  | [] => ret canExit
  | thread :: rest =>
      emit (EvLock (thread_id thread)) ;;
      canExit' <-
        match GetCurrentWindow thread with
        | Some window =>
            if page window then
              emit (EvResumeForeground (ThreadDispatcher (thread_id thread))) ;;
              emit (EvTryClose (handle window)) ;;
              if negb (TryClose window) then
                emit (EvSetForegroundWindow (handle window)) ;;
                ret false
              else ret canExit
            else ret canExit
        | None => ret canExit
        end ;;
      emit (EvUnlock (thread_id thread)) ;;
      poll_threads rest canExit'
  end.

Definition Shutdown (exitCode : Z) : App unit :=
  a <- get ;;
  canExit <- poll_threads (m_Xaml a) true ;;
  if canExit : bool then
    emit (EvResumeForeground MainDispatcherQueue) ;;
    emit EvShutdownQueueAsync ;;
    emit (EvPostQuitMessage exitCode)
  else ret tt.

(** ** BringWelcomeToFront (lines 216-227) *)

Definition BringWelcomeToFront : App bool :=
  a <- get ;;
  if negb (m_WelcomePage a =? nullptr) then
    emit (EvSetForegroundWindow (m_WelcomePage a)) ;;
    ret true
  else ret false.

(** ** ConfigurationChanged and the links (lines 13-18, 133-146) *)

Definition ConfigurationChanged : App unit :=
  emit EvWorkerConfigurationChanged ;;
  emit EvAppWindowConfigurationChanged.

(** The URI is the two literals around the [APP_NAME] macro. *)
Definition OpenDonationPage : App unit := emit (EvOpenUri "https://liberapay.com/" "").
Definition OpenTipsPage : App unit := emit (EvOpenUri "https://" ".github.io/tips").
Definition OpenDiscordServer : App unit := emit (EvOpenUri "https://discord.gg/" "").

(** ** The welcome page (lines 26-87) *)

(** The bodies of the callables queued for the main thread. *)
Definition run_main_task (t : main_task) : App unit :=
  match t with
  | SetWelcomePage hwnd =>
      modify (set_WelcomePage hwnd)
  | WelcomeClosed hasStartup =>
      modify (set_WelcomePage nullptr) ;;
      (if hasStartup : bool then emit EvStartupDisable else ret tt) ;;
      emit EvDeleteConfigFile ;;
      Shutdown 1
  | EditConfig =>
      emit EvEditConfigFile
  | WelcomeApproved =>
      modify (set_WelcomePage nullptr) ;;
      emit EvSaveConfig ;;
      emit EvRemoveHideTrayIconOverride ;;
      emit (EvSendNotification IDS_WELCOME_NOTIFICATION)
  end.

Definition update_content (f : WelcomePageContent -> WelcomePageContent) : App unit :=
  modify (fun a => set_welcome (option_map f (welcome a)) a).

(** Registering a handler on the content, one function per event. *)
Definition with_Closed (h : option bool) (c : WelcomePageContent) : WelcomePageContent :=
  {| on_Closed := h;
     on_LiberapayOpenRequested := on_LiberapayOpenRequested c;
     on_DiscordJoinRequested := on_DiscordJoinRequested c;
     on_ConfigEditRequested := on_ConfigEditRequested c;
     on_LicenseApproved := on_LicenseApproved c |}.
Definition with_LiberapayOpenRequested (c : WelcomePageContent) : WelcomePageContent :=
  {| on_Closed := on_Closed c;
     on_LiberapayOpenRequested := true;
     on_DiscordJoinRequested := on_DiscordJoinRequested c;
     on_ConfigEditRequested := on_ConfigEditRequested c;
     on_LicenseApproved := on_LicenseApproved c |}.
Definition with_DiscordJoinRequested (c : WelcomePageContent) : WelcomePageContent :=
  {| on_Closed := on_Closed c;
     on_LiberapayOpenRequested := on_LiberapayOpenRequested c;
     on_DiscordJoinRequested := true;
     on_ConfigEditRequested := on_ConfigEditRequested c;
     on_LicenseApproved := on_LicenseApproved c |}.
Definition with_ConfigEditRequested (c : WelcomePageContent) : WelcomePageContent :=
  {| on_Closed := on_Closed c;
     on_LiberapayOpenRequested := on_LiberapayOpenRequested c;
     on_DiscordJoinRequested := on_DiscordJoinRequested c;
     on_ConfigEditRequested := true;
     on_LicenseApproved := on_LicenseApproved c |}.
Definition with_LicenseApproved (c : WelcomePageContent) : WelcomePageContent :=
  {| on_Closed := on_Closed c;
     on_LiberapayOpenRequested := on_LiberapayOpenRequested c;
     on_DiscordJoinRequested := on_DiscordJoinRequested c;
     on_ConfigEditRequested := on_ConfigEditRequested c;
     on_LicenseApproved := true |}.

(** The configuration callback of lines 39-86, run once the window is
    built: [hasStartup] is captured, [host_handle] is [host->handle()]. *)
Definition configure_welcome (hasStartup : bool) (host_handle : HWND) : App unit :=
  DispatchToMainThread (SetWelcomePage host_handle) ;;
  (* auto closeRevoker = content.Closed(winrt::auto_revoke, ...) *)
  update_content (with_Closed (Some hasStartup)) ;;
  update_content with_LiberapayOpenRequested ;;
  update_content with_DiscordJoinRequested ;;
  update_content with_ConfigEditRequested ;;
  (* the revoker is moved into the LicenseApproved handler *)
  update_content with_LicenseApproved.

(** [revoker.revoke()]: the [Closed] registration is removed from the
    page. *)
Definition revoke : App unit :=
  emit EvRevokeClosed ;;
  update_content (with_Closed None).

(** Modelled from the spec: [CreateXamlWindow] (application.hpp) is
    missing; it `constructs the window of the requested semantic kind' and
    `invokes configureCallback(content, hostHandle) on that same thread
    once construction completes'. *)
Definition CreateXamlWindow (kind : page_kind) (position : xaml_startup_position)
    (host_handle : HWND) (callback : HWND -> App unit) : App unit :=
  emit (EvCreateXamlWindow kind position) ;;
  modify (set_welcome (Some new_content)) ;;
  callback host_handle.

Definition is_non_null (operation : IAsyncOperation) : bool :=
  match operation with Some _ => true | None => false end.

(** Lines 26-87.  [host_handle] is the handle of the window that gets
    built. *)
Definition CreateWelcomePage (operation : IAsyncOperation) (host_handle : HWND) : App unit :=
  match operation with
  | Some op =>
      emit (EvAwaitOperation op) ;;
      emit EvAwaitStartupEnable
  | None => ret tt
  end ;;
  CreateXamlWindow WelcomePage center host_handle
    (configure_welcome (is_non_null operation)).

(** The events the welcome page raises, and the handlers of lines 46-85
    they reach. *)
Inductive page_event :=
| Closed
| LiberapayOpenRequested
| DiscordJoinRequested
| ConfigEditRequested
| LicenseApproved.

Definition raise_event (e : page_event) : App unit :=
  a <- get ;;
  match welcome a with
  | None => ret tt
  | Some c =>
      match e with
      | Closed =>
          match on_Closed c with
          | Some hasStartup => DispatchToMainThread (WelcomeClosed hasStartup)
          | None => ret tt
          end
      | LiberapayOpenRequested =>
          if on_LiberapayOpenRequested c then OpenDonationPage else ret tt
      | DiscordJoinRequested =>
          if on_DiscordJoinRequested c then OpenDiscordServer else ret tt
      | ConfigEditRequested =>
          if on_ConfigEditRequested c then DispatchToMainThread EditConfig else ret tt
      | LicenseApproved =>
          if on_LicenseApproved c then
            revoke ;;
            DispatchToMainThread WelcomeApproved
          else ret tt
      end
  end.

(** ** The constructor (lines 89-131) *)

(** What the constructor finds around it. *)
Record environment := {
  (** [m_Loader.SetPreferredAppMode()] found the function *)
  has_SetPreferredAppMode : bool;
  (** what [m_Startup.AcquireTask()] returns *)
  AcquireTask_result : IAsyncOperation;
  (** the handle of the welcome window, if one gets built *)
  welcome_host : HWND
}.

Definition has_value {A} (o : option A) : bool :=
  match o with Some _ => true | None => false end.

Definition UwpCRT_version : PACKAGE_VERSION :=
  {| Revision := 0; Build := 30704; Minor := 0; Major := 14 |}.
Definition WinUI_version : PACKAGE_VERSION :=
  {| Revision := 0; Build := 21001; Minor := 2207; Major := 7 |}.

(** The member initialisers of lines 91-119, in the order written, for a
    construction that reaches the body: the subsystems they build are
    outside this file. *)
Definition member_initialisers (storageFolder : option string) (fileExists : bool) : App unit :=
  emit (EvDynamicDependency "Microsoft.VCLibs.140.00_8wekyb3d8bbwe" UwpCRT_version
          (has_value storageFolder)) ;;
  emit (EvDynamicDependency "Microsoft.UI.Xaml.2.7_8wekyb3d8bbwe" WinUI_version
          (has_value storageFolder)) ;;
  emit (EvConfigManager storageFolder fileExists) ;;
  emit (EvWorker storageFolder) ;;
  emit EvCreateDispatcherController ;;
  emit EvCreateXamlApp ;;
  emit EvCreateXamlManager ;;
  emit (EvMainAppWindow (negb fileExists) (has_value storageFolder)) ;;
  emit EvXamlThreadPool.

Definition Application_ctor (env : environment) (hInst : HINSTANCE)
    (storageFolder : option string) (fileExists : bool) : App unit :=
  member_initialisers storageFolder fileExists ;;
  (if has_SetPreferredAppMode env then emit (EvPreferredAppMode AllowDark) else ret tt) ;;
  op <- (if has_value storageFolder
         then emit EvAcquireTask ;; ret (AcquireTask_result env)
         else ret None) ;;
  if negb fileExists then CreateWelcomePage op (welcome_host env)
  else ret tt.

(** ** The life of the application after construction *)

Inductive step :=
| Raise (e : page_event)                 (* the welcome page raises an event *)
| RunMainTask                            (* the main thread runs its oldest callable *)
| ThreadsBecome (ts : list XamlThread)   (* the XAML threads and their windows change *)
| ConfigFileChanged                      (* the configuration manager calls back *)
| CallBringWelcomeToFront.

Definition do_step (st : step) : App unit :=
  match st with
  | Raise e => raise_event e
  | RunMainTask =>
      a <- get ;;
      match main_queue a with
      | [] => ret tt
      | t :: q => modify (set_main_queue q) ;; run_main_task t
      end
  | ThreadsBecome ts => modify (set_Xaml ts)
  | ConfigFileChanged => ConfigurationChanged
  | CallBringWelcomeToFront => _ <- BringWelcomeToFront ;; ret tt
  end.

Fixpoint run_steps (steps : list step) : App unit :=
  match steps with
  | [] => ret tt
  | st :: rest => do_step st ;; run_steps rest
  end.

(** ** Dependency versions *)

(** [PACKAGE_VERSION::Version]: the four fields read as one 64-bit number,
    [Revision] in the low 16 bits and [Major] in the high ones. *)
Definition Version (v : PACKAGE_VERSION) : Z :=
  Z.lor (Z.shiftl (Major v) 48)
    (Z.lor (Z.shiftl (Minor v) 32)
       (Z.lor (Z.shiftl (Build v) 16) (Revision v))).

(** Modelled from the spec: the check that a dependency is present is made
    outside this file; `version comparison is lexicographic on (major,
    minor, build, revision); a dependency is satisfied if an installed
    version >= descriptor exists'. *)
Definition satisfied_by (descriptor installed : PACKAGE_VERSION) : bool :=
  match Major installed ?= Major descriptor with
  | Gt => true
  | Lt => false
  | Eq =>
      match Minor installed ?= Minor descriptor with
      | Gt => true
      | Lt => false
      | Eq =>
          match Build installed ?= Build descriptor with
          | Gt => true
          | Lt => false
          | Eq => Revision descriptor <=? Revision installed
          end
      end
  end.

(** ** Vocabulary of the statements *)

(** The window [Shutdown] asks on a thread: the current one, when it has
    content. *)
Definition polled_window (thread : XamlThread) : option XamlWindow :=
  match GetCurrentWindow thread with
  | Some window => if page window then Some window else None
  | None => None
  end.

Definition polled_windows (threads : list XamlThread) : list XamlWindow :=
  flat_map (fun t => match polled_window t with Some w => [w] | None => [] end) threads.

Definition refuses (w : XamlWindow) : bool := negb (TryClose w).

(** Readings of a list of events. *)
Definition asked_to_close (evs : list event) : list HWND :=
  flat_map (fun e => match e with EvTryClose h => [h] | _ => [] end) evs.
Definition brought_to_front (evs : list event) : list HWND :=
  flat_map (fun e => match e with EvSetForegroundWindow h => [h] | _ => [] end) evs.
Definition quit_codes (evs : list event) : list Z :=
  flat_map (fun e => match e with EvPostQuitMessage c => [c] | _ => [] end) evs.
Definition locked (evs : list event) : list nat :=
  flat_map (fun e => match e with EvLock t => [t] | _ => [] end) evs.

(** What the poll does on one thread, and on all of them. *)
Definition poll_events_of (thread : XamlThread) : list event :=
  EvLock (thread_id thread) ::
  match polled_window thread with
  | Some w =>
      [EvResumeForeground (ThreadDispatcher (thread_id thread)); EvTryClose (handle w)]
      ++ (if refuses w then [EvSetForegroundWindow (handle w)] else [])
  | None => []
  end ++ [EvUnlock (thread_id thread)].

Definition exit_events (exitCode : Z) : list event :=
  [EvResumeForeground MainDispatcherQueue; EvShutdownQueueAsync; EvPostQuitMessage exitCode].

(** Further readings of a list of events. *)
Definition window_creations (evs : list event) : list (page_kind * xaml_startup_position) :=
  flat_map (fun e => match e with EvCreateXamlWindow k p => [(k, p)] | _ => [] end) evs.
Definition is_await (e : event) : bool :=
  match e with EvAwaitOperation _ | EvAwaitStartupEnable => true | _ => false end.
Definition is_AcquireTask (e : event) : bool :=
  match e with EvAcquireTask => true | _ => false end.
Definition is_SaveConfig (e : event) : bool :=
  match e with EvSaveConfig => true | _ => false end.

(** The events of the constructor and of [CreateWelcomePage] itself, as
    opposed to those of the handlers and callables that run later. *)
Definition construction_event (e : event) : bool :=
  match e with
  | EvDynamicDependency _ _ _ | EvConfigManager _ _ | EvWorker _
  | EvCreateDispatcherController | EvCreateXamlApp | EvCreateXamlManager
  | EvMainAppWindow _ _ | EvXamlThreadPool | EvPreferredAppMode _
  | EvAcquireTask | EvAwaitOperation _ | EvAwaitStartupEnable
  | EvCreateXamlWindow _ _ => true
  | _ => false
  end.

(** The events of the callable queued by the [Closed] handler (lines
    50-58): [Disable], [DeleteConfigFile] and those of [Shutdown], bar
    [SetForegroundWindow], which [BringWelcomeToFront] calls too. *)
Definition closed_path_event (e : event) : bool :=
  match e with
  | EvStartupDisable | EvDeleteConfigFile
  | EvLock _ | EvUnlock _ | EvResumeForeground _ | EvTryClose _
  | EvShutdownQueueAsync | EvPostQuitMessage _ => true
  | _ => false
  end.

Definition is_WelcomeClosed (t : main_task) : bool :=
  match t with WelcomeClosed _ => true | _ => false end.
Definition is_WelcomeApproved (t : main_task) : bool :=
  match t with WelcomeApproved => true | _ => false end.
Definition raises_LicenseApproved (st : step) : bool :=
  match st with Raise LicenseApproved => true | _ => false end.

(** The [Closed] registration is live, with this captured [hasStartup]. *)
Definition Closed_registered (a : Application) : option bool :=
  match welcome a with
  | Some c => on_Closed c
  | None => None
  end.
Definition LicenseApproved_registered (a : Application) : bool :=
  match welcome a with
  | Some c => on_LicenseApproved c
  | None => false
  end.

(** The page content once the callback of lines 39-86 has run. *)
Definition configured (hasStartup : bool) : WelcomePageContent :=
  {| on_Closed := Some hasStartup; on_LiberapayOpenRequested := true;
     on_DiscordJoinRequested := true; on_ConfigEditRequested := true;
     on_LicenseApproved := true |}.

(** The events of [CreateWelcomePage]. *)
Definition welcome_events (operation : IAsyncOperation) : list event :=
  match operation with
  | Some op => [EvAwaitOperation op; EvAwaitStartupEnable]
  | None => []
  end ++ [EvCreateXamlWindow WelcomePage center].

(** Callables of the approval still waiting in a queue. *)
Definition pending_approvals (q : list main_task) : nat :=
  List.length (filter is_WelcomeApproved q).

(** No [Closed] handler is registered and no callable of one is queued. *)
Definition Closed_revoked (a : Application) : Prop :=
  Closed_registered a = None
  /\ forallb (fun t => negb (is_WelcomeClosed t)) (main_queue a) = true.

(** Each field of a [PACKAGE_VERSION] is a [USHORT]. *)
Definition USHORT_fields (v : PACKAGE_VERSION) : Prop :=
  0 <= Revision v < 2 ^ 16 /\ 0 <= Build v < 2 ^ 16
  /\ 0 <= Minor v < 2 ^ 16 /\ 0 <= Major v < 2 ^ 16.

(** What the loop does with a message that is not [WM_QUIT]. *)
Definition handled (PreTranslateMessage : MSG -> bool) (msg : MSG) : list event :=
  EvPreTranslateMessage msg ::
  (if PreTranslateMessage msg then []
   else [EvTranslateMessage msg; EvDispatchMessage msg]).

(** ** Sample inputs *)

(** An application with no welcome page, nothing queued and no XAML
    thread. *)
Definition sample_start : Application :=
  {| m_WelcomePage := nullptr; main_queue := []; welcome := None; m_Xaml := [] |}.

(** Five threads: two windows that agree to close, one that refuses, one
    without content, and a thread without a window. *)
Definition sample_threads : list XamlThread :=
  [ {| thread_id := 1;
       GetCurrentWindow := Some {| handle := 101; page := true; TryClose := true |} |};
    {| thread_id := 2;
       GetCurrentWindow := Some {| handle := 102; page := true; TryClose := false |} |};
    {| thread_id := 3;
       GetCurrentWindow := Some {| handle := 103; page := false; TryClose := false |} |};
    {| thread_id := 4; GetCurrentWindow := None |};
    {| thread_id := 5;
       GetCurrentWindow := Some {| handle := 105; page := true; TryClose := true |} |} ].

Definition sample_message (kind : Z) : MSG :=
  {| hwnd := 7; message := kind; wParam := 0; lParam := 0 |}.

(** A tray window that consumes the messages 0x0100 and nothing else. *)
Definition sample_PreTranslateMessage (msg : MSG) : bool := message msg =? 0x0100.

(** Two threads whose windows both agree to close. *)
Definition sample_agreeing_threads : list XamlThread :=
  [ {| thread_id := 1;
       GetCurrentWindow := Some {| handle := 101; page := true; TryClose := true |} |};
    {| thread_id := 5;
       GetCurrentWindow := Some {| handle := 105; page := true; TryClose := true |} |} ].

(** ** Further vocabulary: the message loop *)

(** A wake-up for messages whose batch holds a [WM_QUIT]. *)
Definition carries_quit (w : wakeup) : bool :=
  (wait_result w =? WAIT_OBJECT_0)
  && existsb (fun m => message m =? WM_QUIT) (pending w).

Definition is_io_completion (w : wakeup) : bool :=
  wait_result w =? WAIT_IO_COMPLETION.

Definition is_wait (e : event) : bool :=
  match e with EvMsgWaitForMultipleObjectsEx => true | _ => false end.

(** ** Further vocabulary: the shutdown poll *)

(** A check of the order of the events of a poll.  [held] is the thread
    whose lock is held, [on] the dispatcher last resumed on.  A lock is
    taken only when none is held and released only by its holder; a
    window is asked to close only under its thread's lock and on that
    thread's dispatcher, and brought to the front only under a lock; the
    queue is shut down and the quit message posted only with no lock
    held, on the main dispatcher queue; at the end no lock is held. *)
Fixpoint poll_protocol (held : option nat) (on : option dispatcher)
    (evs : list event) : bool :=
  match evs with
  | [] => match held with None => true | Some _ => false end
  | e :: rest =>
      match e with
      | EvLock t =>
          match held with
          | None => poll_protocol (Some t) on rest
          | Some _ => false
          end
      | EvUnlock t =>
          match held with
          | Some t' => Nat.eqb t t' && poll_protocol None on rest
          | None => false
          end
      | EvResumeForeground d => poll_protocol held (Some d) rest
      | EvTryClose _ =>
          match held, on with
          | Some t, Some (ThreadDispatcher t') => Nat.eqb t t' && poll_protocol held on rest
          | _, _ => false
          end
      | EvSetForegroundWindow _ =>
          match held with
          | Some _ => poll_protocol held on rest
          | None => false
          end
      | EvShutdownQueueAsync | EvPostQuitMessage _ =>
          match held, on with
          | None, Some MainDispatcherQueue => poll_protocol held on rest
          | _, _ => false
          end
      | _ => poll_protocol held on rest
      end
  end.

(** ** Further vocabulary: the welcome page and the main thread *)

Definition is_ConfigFileChanged (st : step) : bool :=
  match st with ConfigFileChanged => true | _ => false end.

(** The calls [ConfigurationChanged] makes. *)
Definition is_configuration_notice (e : event) : bool :=
  match e with
  | EvWorkerConfigurationChanged | EvAppWindowConfigurationChanged => true
  | _ => false
  end.

(** The calls of the approval's callable (lines 81-83). *)
Definition approval_effect (e : event) : bool :=
  match e with
  | EvSaveConfig | EvRemoveHideTrayIconOverride | EvSendNotification _ => true
  | _ => false
  end.


(** From one state of the page to a later one: no page stays no page; on
    a page every handler but that of [Closed] is as it was, and the
    [Closed] registration is as it was or revoked. *)
Definition handlers_kept (before after : option WelcomePageContent) : Prop :=
  match before, after with
  | None, None => True
  | Some c, Some c' =>
      on_LiberapayOpenRequested c' = on_LiberapayOpenRequested c
      /\ on_DiscordJoinRequested c' = on_DiscordJoinRequested c
      /\ on_ConfigEditRequested c' = on_ConfigEditRequested c
      /\ on_LicenseApproved c' = on_LicenseApproved c
      /\ (on_Closed c' = on_Closed c \/ on_Closed c' = None)
  | _, _ => False
  end.

(** ** The monad: running a sequence *)

Lemma run_bind {A B} (m : App A) (k : A -> App B) a :
  bind m k a =
  (result (k (result m a)) (state_after m a),
   state_after (k (result m a)) (state_after m a),
   events m a ++ events (k (result m a)) (state_after m a)).
Proof.
  unfold bind, result, state_after, events.
  destruct (m a) as [[x a1] e1]; cbn.
  destruct (k x a1) as [[y a2] e2]; reflexivity.
Qed.

Lemma events_bind {A B} (m : App A) (k : A -> App B) a :
  events (bind m k) a = events m a ++ events (k (result m a)) (state_after m a).
Proof. unfold events at 1. rewrite run_bind. reflexivity. Qed.

Lemma state_after_bind {A B} (m : App A) (k : A -> App B) a :
  state_after (bind m k) a = state_after (k (result m a)) (state_after m a).
Proof. unfold state_after at 1. rewrite run_bind. reflexivity. Qed.

Lemma result_bind {A B} (m : App A) (k : A -> App B) a :
  result (bind m k) a = result (k (result m a)) (state_after m a).
Proof. unfold result at 1. rewrite run_bind. reflexivity. Qed.

(** ** Shutdown *)

Lemma poll_threads_run threads : forall canExit a,
  poll_threads threads canExit a =
  (canExit && forallb TryClose (polled_windows threads), a,
   flat_map poll_events_of threads).
Proof.
  induction threads as [|t ts IH]; intros canExit a; cbn [poll_threads].
  - cbn. rewrite andb_true_r. reflexivity.
  - unfold poll_events_of, polled_windows, polled_window, refuses.
    cbn [flat_map].
    destruct (GetCurrentWindow t) as [w|];
      [destruct (page w); [destruct (TryClose w) eqn:E|]|];
      unfold bind, emit, ret; cbn; rewrite IH; cbn; rewrite ?E; cbn;
      rewrite ?andb_false_r; reflexivity.
Qed.

Lemma Shutdown_run exitCode a :
  Shutdown exitCode a =
  (tt, a,
   flat_map poll_events_of (m_Xaml a)
   ++ (if forallb TryClose (polled_windows (m_Xaml a)) then exit_events exitCode else [])).
Proof.
  unfold Shutdown, bind, get. rewrite poll_threads_run. cbn.
  destruct (forallb TryClose (polled_windows (m_Xaml a))); cbn;
    rewrite ?app_nil_r; reflexivity.
Qed.

Lemma reading_app {A} (f : event -> list A) (l1 l2 : list event) :
  flat_map f (l1 ++ l2) = flat_map f l1 ++ flat_map f l2.
Proof. apply flat_map_app. Qed.

(** The three shapes of [poll_events_of]: a window that agrees, one that
    refuses, no polled window. *)
Ltac poll_cases t :=
  unfold poll_events_of;
  let w := fresh "w" in
  destruct (polled_window t) as [w|]; [destruct (refuses w)|].

Lemma poll_asks_every_window threads :
  asked_to_close (flat_map poll_events_of threads) = map handle (polled_windows threads).
Proof.
  unfold asked_to_close, polled_windows.
  induction threads as [|t ts IH]; [reflexivity|].
  cbn [flat_map]. rewrite reading_app, map_app, IH. f_equal.
  poll_cases t; reflexivity.
Qed.

Lemma poll_alerts_refusals threads :
  brought_to_front (flat_map poll_events_of threads)
  = map handle (filter refuses (polled_windows threads)).
Proof.
  unfold brought_to_front, polled_windows.
  induction threads as [|t ts IH]; [reflexivity|].
  cbn [flat_map]. rewrite reading_app, filter_app, map_app, IH. f_equal.
  unfold poll_events_of. destruct (polled_window t) as [w|]; [|reflexivity].
  cbn. destruct (refuses w); reflexivity.
Qed.

Lemma poll_locks_every_thread threads :
  locked (flat_map poll_events_of threads) = map thread_id threads.
Proof.
  unfold locked.
  induction threads as [|t ts IH]; [reflexivity|].
  cbn [flat_map map]. rewrite reading_app, IH.
  poll_cases t; reflexivity.
Qed.

Lemma poll_posts_nothing threads :
  quit_codes (flat_map poll_events_of threads) = [].
Proof.
  unfold quit_codes.
  induction threads as [|t ts IH]; [reflexivity|].
  cbn [flat_map]. rewrite reading_app, IH, app_nil_r.
  poll_cases t; reflexivity.
Qed.

(** C1.  [Shutdown(exitCode)] posts the quit message, once and with
    [exitCode], right after [ShutdownQueueAsync], exactly when every polled
    window (a thread's current window that has content) agrees to close.
    One refusal means no quit message is posted; every refusing window is
    brought to the foreground; and whatever the answers, every thread is
    locked and every polled window is asked. *)
Theorem Shutdown_posts_quit_iff_all_agree (exitCode : Z) (a : Application) :
  let evs := events (Shutdown exitCode) a in
  let windows := polled_windows (m_Xaml a) in
  (In (EvPostQuitMessage exitCode) evs <-> forallb TryClose windows = true)
  /\ quit_codes evs = (if forallb TryClose windows then [exitCode] else [])
  /\ (forallb TryClose windows = true ->
      exists poll, evs = poll ++ [EvShutdownQueueAsync; EvPostQuitMessage exitCode])
  /\ (forall w, In w windows -> TryClose w = false ->
      quit_codes evs = [] /\ In (EvSetForegroundWindow (handle w)) evs)
  /\ brought_to_front evs = map handle (filter refuses windows)
  /\ asked_to_close evs = map handle windows
  /\ locked evs = map thread_id (m_Xaml a)
  /\ state_after (Shutdown exitCode) a = a.
Proof.
  cbv zeta. unfold events, state_after. rewrite Shutdown_run. cbn [fst snd].
  set (ts := m_Xaml a). set (ws := polled_windows ts).
  assert (Hq : quit_codes (flat_map poll_events_of ts
                 ++ (if forallb TryClose ws then exit_events exitCode else []))
               = if forallb TryClose ws then [exitCode] else []).
  { unfold quit_codes. rewrite reading_app. fold (quit_codes (flat_map poll_events_of ts)).
    rewrite poll_posts_nothing. destruct (forallb TryClose ws); reflexivity. }
  assert (Hf : brought_to_front (flat_map poll_events_of ts
                 ++ (if forallb TryClose ws then exit_events exitCode else []))
               = map handle (filter refuses ws)).
  { unfold brought_to_front. rewrite reading_app.
    fold (brought_to_front (flat_map poll_events_of ts)).
    rewrite poll_alerts_refusals. fold ws.
    destruct (forallb TryClose ws); cbn; apply app_nil_r. }
  split; [split|].
  - intros Hin. destruct (forallb TryClose ws) eqn:E; [reflexivity|].
    assert (Hc : In exitCode (quit_codes (flat_map poll_events_of ts ++ []))).
    { unfold quit_codes. apply in_flat_map. exists (EvPostQuitMessage exitCode).
      split; [exact Hin | left; reflexivity]. }
    rewrite app_nil_r, poll_posts_nothing in Hc. destruct Hc.
  - intros ->. apply in_or_app. right. cbn. auto.
  - split; [exact Hq|]. split; [|split; [|split; [exact Hf|split; [|split]]]].
    + intros ->.
      exists (flat_map poll_events_of ts ++ [EvResumeForeground MainDispatcherQueue]).
      rewrite <- app_assoc. reflexivity.
    + intros w Hw Hrefuses. split.
      * assert (E : forallb TryClose ws = false).
        { destruct (forallb TryClose ws) eqn:E; [|reflexivity].
          rewrite forallb_forall in E. rewrite (E w Hw) in Hrefuses. discriminate. }
        rewrite Hq, E. reflexivity.
      * assert (Hh : In (handle w) (map handle (filter refuses ws))).
        { apply in_map, filter_In. split; [exact Hw|].
          unfold refuses. rewrite Hrefuses. reflexivity. }
        rewrite <- Hf in Hh. unfold brought_to_front in Hh.
        apply in_flat_map in Hh. destruct Hh as [e [He Hx]].
        destruct e; cbn in Hx; try contradiction.
        destruct Hx as [<- | []]. exact He.
    + unfold asked_to_close. rewrite reading_app.
      fold (asked_to_close (flat_map poll_events_of ts)).
      rewrite poll_asks_every_window. fold ws.
      destruct (forallb TryClose ws); cbn; apply app_nil_r.
    + unfold locked. rewrite reading_app.
      fold (locked (flat_map poll_events_of ts)).
      rewrite poll_locks_every_thread.
      destruct (forallb TryClose ws); cbn; apply app_nil_r.
    + reflexivity.
Qed.

(** ** BringWelcomeToFront *)

(** C10.  [BringWelcomeToFront] returns [true] exactly when the cached
    welcome-window handle is not null; it then calls [SetForegroundWindow]
    on that handle, and otherwise calls nothing; the cached handle (the
    whole state) is left as it was. *)
Theorem BringWelcomeToFront_iff_handle (a : Application) :
  (result BringWelcomeToFront a = true <-> m_WelcomePage a <> nullptr)
  /\ (result BringWelcomeToFront a = false <-> m_WelcomePage a = nullptr)
  /\ events BringWelcomeToFront a =
       (if result BringWelcomeToFront a
        then [EvSetForegroundWindow (m_WelcomePage a)] else [])
  /\ state_after BringWelcomeToFront a = a
  /\ m_WelcomePage (state_after BringWelcomeToFront a) = m_WelcomePage a.
Proof.
  unfold BringWelcomeToFront, result, events, state_after, bind, get, emit, ret.
  cbn. destruct (Z.eqb_spec (m_WelcomePage a) nullptr) as [E|E]; cbn;
    repeat split; intros; congruence.
Qed.

(** ** The main message loop *)

Section MessageLoopFacts.

Variable PreTranslateMessage : MSG -> bool.

Lemma process_message_handled msg :
  process_message PreTranslateMessage msg = handled PreTranslateMessage msg.
Proof.
  unfold process_message, handled.
  destruct (PreTranslateMessage msg); reflexivity.
Qed.

Lemma peek_loop_no_quit msgs :
  Forall (fun m => message m <> WM_QUIT) msgs ->
  peek_loop PreTranslateMessage msgs = (flat_map (handled PreTranslateMessage) msgs, None).
Proof.
  induction 1 as [|m ms Hm _ IH]; [reflexivity|].
  cbn [peek_loop flat_map].
  destruct (Z.eqb_spec (message m) WM_QUIT) as [E|_]; [contradiction|].
  cbn [negb]. rewrite IH, process_message_handled. reflexivity.
Qed.

Lemma peek_loop_quit before q after :
  Forall (fun m => message m <> WM_QUIT) before ->
  message q = WM_QUIT ->
  peek_loop PreTranslateMessage (before ++ q :: after)
  = (flat_map (handled PreTranslateMessage) before, Some (static_cast_int (wParam q))).
Proof.
  intros Hb Hq. induction Hb as [|m ms Hm _ IH].
  - cbn. rewrite Hq. reflexivity.
  - cbn [app peek_loop flat_map].
    destruct (Z.eqb_spec (message m) WM_QUIT) as [E|_]; [contradiction|].
    cbn [negb]. rewrite IH, process_message_handled. reflexivity.
Qed.

Lemma handled_pretranslates before m :
  In (EvPreTranslateMessage m) (flat_map (handled PreTranslateMessage) before) <-> In m before.
Proof.
  rewrite in_flat_map. split.
  - intros [m' [Hin H]]. unfold handled in H.
    destruct H as [H|H]; [injection H as ->; exact Hin|].
    destruct (PreTranslateMessage m'); cbn in H;
      [contradiction | destruct H as [H|[H|[]]]; discriminate].
  - intros Hin. exists m. split; [exact Hin | left; reflexivity].
Qed.

Lemma handled_dispatches before m :
  In (EvDispatchMessage m) (flat_map (handled PreTranslateMessage) before)
  <-> In m before /\ PreTranslateMessage m = false.
Proof.
  rewrite in_flat_map. split.
  - intros [m' [Hin H]]. unfold handled in H.
    destruct H as [H|H]; [discriminate|].
    destruct (PreTranslateMessage m') eqn:E; cbn in H; [contradiction|].
    destruct H as [H|[H|[]]]; [discriminate|].
    injection H as ->. split; assumption.
  - intros [Hin Hp]. exists m. split; [exact Hin|].
    unfold handled. rewrite Hp. cbn. auto.
Qed.

Lemma handled_translates before m :
  In (EvTranslateMessage m) (flat_map (handled PreTranslateMessage) before)
  <-> In m before /\ PreTranslateMessage m = false.
Proof.
  rewrite in_flat_map. split.
  - intros [m' [Hin H]]. unfold handled in H.
    destruct H as [H|H]; [discriminate|].
    destruct (PreTranslateMessage m') eqn:E; cbn in H; [contradiction|].
    destruct H as [H|[H|[]]]; [|discriminate].
    injection H as ->. split; assumption.
  - intros [Hin Hp]. exists m. split; [exact Hin|].
    unfold handled. rewrite Hp. cbn. auto.
Qed.

Lemma Run_at_quit (before after : list MSG) (q : MSG) (script : list wakeup) :
  Forall (fun m => message m <> WM_QUIT) before ->
  message q = WM_QUIT ->
  Run PreTranslateMessage
    ({| wait_result := WAIT_OBJECT_0; pending := before ++ q :: after |} :: script)
  = (EvMsgWaitForMultipleObjectsEx :: flat_map (handled PreTranslateMessage) before,
     Some (static_cast_int (wParam q))).
Proof.
  intros Hb Hq. cbn [Run wait_result pending].
  change (WAIT_OBJECT_0 =? WAIT_OBJECT_0) with true. cbv iota.
  rewrite (peek_loop_quit before q after Hb Hq). reflexivity.
Qed.

Lemma Run_no_quit (msgs : list MSG) (script : list wakeup) :
  Forall (fun m => message m <> WM_QUIT) msgs ->
  Run PreTranslateMessage ({| wait_result := WAIT_OBJECT_0; pending := msgs |} :: script)
  = (EvMsgWaitForMultipleObjectsEx :: flat_map (handled PreTranslateMessage) msgs
       ++ fst (Run PreTranslateMessage script),
     snd (Run PreTranslateMessage script)).
Proof.
  intros Hm. cbn [Run wait_result pending].
  change (WAIT_OBJECT_0 =? WAIT_OBJECT_0) with true. cbv iota.
  rewrite (peek_loop_no_quit msgs Hm).
  destruct (Run PreTranslateMessage script); reflexivity.
Qed.

Lemma Run_unexpected (w : wakeup) (script : list wakeup) :
  wait_result w <> WAIT_OBJECT_0 ->
  wait_result w <> WAIT_IO_COMPLETION ->
  Run PreTranslateMessage (w :: script)
  = (EvMsgWaitForMultipleObjectsEx ::
     (if wait_result w =? WAIT_FAILED
      then [EvLastErrorHandle critical "Failed to enter alertable wait state!"]
      else [])
     ++ [EvMessagePrint critical "MsgWaitForMultipleObjectsEx returned an unexpected value!"]
     ++ fst (Run PreTranslateMessage script),
     snd (Run PreTranslateMessage script)).
Proof.
  intros H0 Hio. cbn [Run].
  destruct (Z.eqb_spec (wait_result w) WAIT_OBJECT_0) as [E|_]; [contradiction|].
  destruct (Z.eqb_spec (wait_result w) WAIT_IO_COMPLETION) as [E|_]; [contradiction|].
  destruct (wait_result w =? WAIT_FAILED);
    destruct (Run PreTranslateMessage script); reflexivity.
Qed.

(** As long as [Run] has not returned, what it does next does not depend
    on what it did before. *)
Lemma Run_app (earlier script : list wakeup) :
  snd (Run PreTranslateMessage earlier) = None ->
  Run PreTranslateMessage (earlier ++ script)
  = (fst (Run PreTranslateMessage earlier) ++ fst (Run PreTranslateMessage script),
     snd (Run PreTranslateMessage script)).
Proof.
  induction earlier as [|w ws IH]; intros Hnone.
  - cbn. destruct (Run PreTranslateMessage script); reflexivity.
  - cbn [app Run] in Hnone |- *.
    destruct (wait_result w =? WAIT_OBJECT_0).
    + destruct (peek_loop PreTranslateMessage (pending w)) as [evs [code|]];
        [discriminate|].
      destruct (Run PreTranslateMessage ws) as [evs' r] eqn:R.
      cbn [fst snd] in *. rewrite (IH Hnone). cbn [fst snd].
      rewrite !app_comm_cons, !app_assoc. reflexivity.
    + destruct (wait_result w =? WAIT_IO_COMPLETION);
        [|destruct (wait_result w =? WAIT_FAILED)];
        destruct (Run PreTranslateMessage ws) as [evs' r] eqn:R;
        cbn [fst snd] in *; rewrite (IH Hnone); cbn [fst snd];
        rewrite ?app_comm_cons, ?app_assoc; reflexivity.
Qed.

(** C8.  Wherever in the run a wake-up for messages comes, the messages in
    front of the first [WM_QUIT] are each offered to [PreTranslateMessage],
    then translated and dispatched exactly when it did not consume them;
    at [WM_QUIT] [Run] returns the message's [wParam] (narrowed to [int])
    at once: neither the messages behind it nor any later wake-up is
    looked at.  Without a [WM_QUIT] the whole batch is handled so and the
    loop waits again. *)
Theorem Run_returns_at_quit
    (earlier : list wakeup) (before after : list MSG) (q : MSG) (script : list wakeup) :
  snd (Run PreTranslateMessage earlier) = None ->
  Forall (fun m => message m <> WM_QUIT) before ->
  message q = WM_QUIT ->
  let batch :=
    flat_map (fun msg =>
      EvPreTranslateMessage msg ::
      (if PreTranslateMessage msg then []
       else [EvTranslateMessage msg; EvDispatchMessage msg])) before in
  Run PreTranslateMessage
    (earlier
     ++ {| wait_result := WAIT_OBJECT_0; pending := before ++ q :: after |} :: script)
  = (fst (Run PreTranslateMessage earlier) ++ EvMsgWaitForMultipleObjectsEx :: batch,
     Some (static_cast_int (wParam q)))
  /\ Run PreTranslateMessage
       (earlier ++ {| wait_result := WAIT_OBJECT_0; pending := before |} :: script)
     = (fst (Run PreTranslateMessage earlier)
        ++ EvMsgWaitForMultipleObjectsEx :: batch ++ fst (Run PreTranslateMessage script),
        snd (Run PreTranslateMessage script))
  /\ (forall m, In (EvPreTranslateMessage m) batch <-> In m before)
  /\ (forall m, In (EvTranslateMessage m) batch
                <-> In m before /\ PreTranslateMessage m = false)
  /\ (forall m, In (EvDispatchMessage m) batch
                <-> In m before /\ PreTranslateMessage m = false).
Proof.
  intros He Hb Hq. cbv zeta. fold (handled PreTranslateMessage).
  rewrite !(Run_app earlier _ He).
  rewrite (Run_at_quit before after q script Hb Hq), (Run_no_quit before script Hb).
  cbn [fst snd].
  split; [reflexivity|]. split; [reflexivity|].
  split; [|split]; intros m.
  - apply handled_pretranslates.
  - apply handled_translates.
  - apply handled_dispatches.
Qed.

(** C9.  Wherever in the run the wait returns [WAIT_FAILED], or any value
    that is neither [WAIT_OBJECT_0] nor [WAIT_IO_COMPLETION], the loop
    logs at critical severity ([WAIT_FAILED] first logs the last error,
    then falls into the default case) and goes on with the next wait:
    this iteration does not return. *)
Theorem Run_logs_and_continues (earlier : list wakeup) (w : wakeup) (script : list wakeup) :
  snd (Run PreTranslateMessage earlier) = None ->
  wait_result w <> WAIT_OBJECT_0 ->
  wait_result w <> WAIT_IO_COMPLETION ->
  Run PreTranslateMessage (earlier ++ w :: script)
  = (fst (Run PreTranslateMessage earlier)
     ++ EvMsgWaitForMultipleObjectsEx ::
        (if wait_result w =? WAIT_FAILED
         then [EvLastErrorHandle critical "Failed to enter alertable wait state!"]
         else [])
        ++ [EvMessagePrint critical
              "MsgWaitForMultipleObjectsEx returned an unexpected value!"]
        ++ fst (Run PreTranslateMessage script),
     snd (Run PreTranslateMessage script)).
Proof.
  intros He H0 Hio.
  rewrite (Run_app earlier _ He), (Run_unexpected w script H0 Hio). reflexivity.
Qed.

End MessageLoopFacts.

(** C8 at a sample: a completion wake-up, then a batch of a consumed
    message, an unconsumed one, [WM_QUIT] with exit code 3 and one more
    message. *)
Lemma Run_returns_at_quit_witness :
  snd (Run sample_PreTranslateMessage
         [ {| wait_result := WAIT_IO_COMPLETION; pending := [] |} ]) = None
  /\ Forall (fun m => message m <> WM_QUIT) [sample_message 0x0100; sample_message 0x0200]
  /\ message (quit_message 3) = WM_QUIT
  /\ Run sample_PreTranslateMessage
       ([ {| wait_result := WAIT_IO_COMPLETION; pending := [] |} ]
        ++ {| wait_result := WAIT_OBJECT_0;
              pending := [sample_message 0x0100; sample_message 0x0200]
                         ++ quit_message 3 :: [sample_message 0x0201] |}
           :: [ {| wait_result := WAIT_OBJECT_0; pending := [sample_message 0x0202] |} ])
     = ([EvMsgWaitForMultipleObjectsEx;
         EvMsgWaitForMultipleObjectsEx;
         EvPreTranslateMessage (sample_message 0x0100);
         EvPreTranslateMessage (sample_message 0x0200);
         EvTranslateMessage (sample_message 0x0200);
         EvDispatchMessage (sample_message 0x0200)],
        Some 3).
Proof.
  assert (H0 : snd (Run sample_PreTranslateMessage
                      [ {| wait_result := WAIT_IO_COMPLETION; pending := [] |} ]) = None)
    by reflexivity.
  assert (H1 : Forall (fun m => message m <> WM_QUIT)
                 [sample_message 0x0100; sample_message 0x0200])
    by (repeat constructor; discriminate).
  assert (H2 : message (quit_message 3) = WM_QUIT) by reflexivity.
  split; [exact H0 | split; [exact H1 | split; [exact H2 |]]].
  exact (proj1 (Run_returns_at_quit sample_PreTranslateMessage
                  [ {| wait_result := WAIT_IO_COMPLETION; pending := [] |} ]
                  [sample_message 0x0100; sample_message 0x0200]
                  [sample_message 0x0201] (quit_message 3)
                  [ {| wait_result := WAIT_OBJECT_0; pending := [sample_message 0x0202] |} ]
                  H0 H1 H2)).
Defined.

(** C9 at a sample: a failed wait after a completion wake-up, then a
    [WM_QUIT]. *)
Lemma Run_logs_and_continues_witness :
  snd (Run sample_PreTranslateMessage
         [ {| wait_result := WAIT_IO_COMPLETION; pending := [] |} ]) = None
  /\ WAIT_FAILED <> WAIT_OBJECT_0
  /\ WAIT_FAILED <> WAIT_IO_COMPLETION
  /\ Run sample_PreTranslateMessage
       ([ {| wait_result := WAIT_IO_COMPLETION; pending := [] |} ]
        ++ {| wait_result := WAIT_FAILED; pending := [] |}
           :: [ {| wait_result := WAIT_OBJECT_0; pending := [quit_message 0] |} ])
     = ([EvMsgWaitForMultipleObjectsEx;
         EvMsgWaitForMultipleObjectsEx;
         EvLastErrorHandle critical "Failed to enter alertable wait state!";
         EvMessagePrint critical "MsgWaitForMultipleObjectsEx returned an unexpected value!";
         EvMsgWaitForMultipleObjectsEx],
        Some 0).
Proof.
  assert (H0 : snd (Run sample_PreTranslateMessage
                      [ {| wait_result := WAIT_IO_COMPLETION; pending := [] |} ]) = None)
    by reflexivity.
  assert (H1 : WAIT_FAILED <> WAIT_OBJECT_0) by discriminate.
  assert (H2 : WAIT_FAILED <> WAIT_IO_COMPLETION) by discriminate.
  split; [exact H0 | split; [exact H1 | split; [exact H2 |]]].
  exact (Run_logs_and_continues sample_PreTranslateMessage
           [ {| wait_result := WAIT_IO_COMPLETION; pending := [] |} ]
           {| wait_result := WAIT_FAILED; pending := [] |}
           [ {| wait_result := WAIT_OBJECT_0; pending := [quit_message 0] |} ]
           H0 H1 H2).
Defined.

(** An unexpected value of the wait (here 0x102, [WAIT_TIMEOUT]) is logged
    once, and the loop goes on. *)
Example Run_unexpected_value :
  Run sample_PreTranslateMessage
    [ {| wait_result := 0x102; pending := [] |};
      {| wait_result := WAIT_IO_COMPLETION; pending := [] |} ]
  = ([EvMsgWaitForMultipleObjectsEx;
      EvMessagePrint critical "MsgWaitForMultipleObjectsEx returned an unexpected value!";
      EvMsgWaitForMultipleObjectsEx],
     None).
Proof. reflexivity. Qed.

(** The exit code given to [PostQuitMessage] comes back from [Run]. *)
Lemma static_cast_int_quit_message (exitCode : Z) :
  - 2 ^ 31 <= exitCode < 2 ^ 31 ->
  static_cast_int (wParam (quit_message exitCode)) = exitCode.
Proof.
  intros H. unfold static_cast_int, quit_message. cbn [wParam].
  assert (E : (exitCode mod 2 ^ 64) mod 2 ^ 32 = exitCode mod 2 ^ 32).
  { apply Z.mod_mod_divide. exists (2 ^ 32). reflexivity. }
  cbv zeta. rewrite E.
  destruct (Z.ltb_spec (exitCode mod 2 ^ 32) (2 ^ 31)) as [L|L].
  - destruct (Z.lt_ge_cases exitCode 0) as [N|N].
    + assert (exitCode mod 2 ^ 32 = exitCode + 2 ^ 32).
      { symmetry. apply Z.mod_unique with (q := -1); lia. }
      lia.
    + apply Z.mod_small. lia.
  - destruct (Z.lt_ge_cases exitCode 0) as [N|N].
    + assert (exitCode mod 2 ^ 32 = exitCode + 2 ^ 32).
      { symmetry. apply Z.mod_unique with (q := -1); lia. }
      lia.
    + rewrite Z.mod_small in L by lia. lia.
Qed.

(** ** The callables and the handlers, run *)

Lemma run_SetWelcomePage hwnd a :
  run_main_task (SetWelcomePage hwnd) a = (tt, set_WelcomePage hwnd a, []).
Proof. reflexivity. Qed.

Lemma run_EditConfig a :
  run_main_task EditConfig a = (tt, a, [EvEditConfigFile]).
Proof. reflexivity. Qed.

Lemma run_WelcomeApproved a :
  run_main_task WelcomeApproved a
  = (tt, set_WelcomePage nullptr a,
     [EvSaveConfig; EvRemoveHideTrayIconOverride; EvSendNotification IDS_WELCOME_NOTIFICATION]).
Proof. reflexivity. Qed.

Lemma run_WelcomeClosed hasStartup a :
  run_main_task (WelcomeClosed hasStartup) a
  = (tt, set_WelcomePage nullptr a,
     (if hasStartup then [EvStartupDisable] else [])
     ++ [EvDeleteConfigFile]
     ++ events (Shutdown 1) (set_WelcomePage nullptr a)).
Proof.
  unfold events. rewrite Shutdown_run.
  destruct hasStartup; unfold run_main_task, bind, modify, emit, ret;
    rewrite Shutdown_run; reflexivity.
Qed.

Lemma Shutdown_events exitCode a :
  events (Shutdown exitCode) a
  = flat_map poll_events_of (m_Xaml a)
    ++ (if forallb TryClose (polled_windows (m_Xaml a)) then exit_events exitCode else []).
Proof. unfold events. rewrite Shutdown_run. reflexivity. Qed.

Lemma Shutdown_events_Forall (P : event -> Prop) exitCode a :
  (forall t, P (EvLock t)) -> (forall t, P (EvUnlock t)) ->
  (forall d, P (EvResumeForeground d)) -> (forall h, P (EvTryClose h)) ->
  (forall h, P (EvSetForegroundWindow h)) ->
  P EvShutdownQueueAsync -> P (EvPostQuitMessage exitCode) ->
  Forall P (events (Shutdown exitCode) a).
Proof.
  intros HL HU HR HT HF HS HQ.
  rewrite Shutdown_events. apply Forall_app. split.
  - induction (m_Xaml a) as [|t ts IH]; [constructor|].
    cbn [flat_map]. apply Forall_app. split; [|exact IH].
    poll_cases t; repeat constructor; auto.
  - destruct (forallb TryClose (polled_windows (m_Xaml a))); repeat constructor; auto.
Qed.

Lemma Shutdown_not_construction exitCode a :
  Forall (fun e => construction_event e = false) (events (Shutdown exitCode) a).
Proof. apply Shutdown_events_Forall; intros; reflexivity. Qed.

Lemma raise_event_run e a :
  raise_event e a =
  match welcome a with
  | None => (tt, a, [])
  | Some c =>
      match e with
      | Closed =>
          match on_Closed c with
          | Some hasStartup =>
              (tt, set_main_queue (main_queue a ++ [WelcomeClosed hasStartup]) a, [])
          | None => (tt, a, [])
          end
      | LiberapayOpenRequested =>
          (tt, a, if on_LiberapayOpenRequested c
                  then [EvOpenUri "https://liberapay.com/" ""] else [])
      | DiscordJoinRequested =>
          (tt, a, if on_DiscordJoinRequested c
                  then [EvOpenUri "https://discord.gg/" ""] else [])
      | ConfigEditRequested =>
          if on_ConfigEditRequested c
          then (tt, set_main_queue (main_queue a ++ [EditConfig]) a, [])
          else (tt, a, [])
      | LicenseApproved =>
          if on_LicenseApproved c
          then (tt,
                set_main_queue (main_queue a ++ [WelcomeApproved])
                  (set_welcome
                     (Some (with_Closed None c)) a),
                [EvRevokeClosed])
          else (tt, a, [])
      end
  end.
Proof.
  unfold raise_event, bind, get. cbn.
  destruct (welcome a) as [c|] eqn:W; [|reflexivity].
  destruct e; cbn.
  - destruct (on_Closed c); reflexivity.
  - destruct (on_LiberapayOpenRequested c); reflexivity.
  - destruct (on_DiscordJoinRequested c); reflexivity.
  - destruct (on_ConfigEditRequested c); reflexivity.
  - destruct (on_LicenseApproved c) eqn:L; [|reflexivity].
    cbn. rewrite W. reflexivity.
Qed.

Lemma do_step_not_construction st a :
  Forall (fun e => construction_event e = false) (events (do_step st) a).
Proof.
  destruct st as [e| |ts| |]; cbn [do_step].
  - unfold events. rewrite raise_event_run.
    destruct (welcome a) as [c|]; [|constructor].
    destruct e; cbn.
    + destruct (on_Closed c); constructor.
    + destruct (on_LiberapayOpenRequested c); repeat constructor.
    + destruct (on_DiscordJoinRequested c); repeat constructor.
    + destruct (on_ConfigEditRequested c); constructor.
    + destruct (on_LicenseApproved c); repeat constructor.
  - rewrite events_bind. cbn.
    destruct (main_queue a) as [|t q]; [constructor|].
    rewrite events_bind. cbn.
    destruct t as [h|hs| |]; unfold events;
      rewrite ?run_SetWelcomePage, ?run_WelcomeClosed, ?run_EditConfig, ?run_WelcomeApproved;
      cbn [snd]; repeat constructor.
    apply Forall_app. split; [destruct hs; repeat constructor|].
    constructor; [reflexivity|]. apply Shutdown_not_construction.
  - constructor.
  - repeat constructor.
  - unfold events, BringWelcomeToFront, bind, get, emit, ret. cbn.
    destruct (m_WelcomePage a =? nullptr); repeat constructor.
Qed.

Lemma run_steps_not_construction steps : forall a,
  Forall (fun e => construction_event e = false) (events (run_steps steps) a).
Proof.
  induction steps as [|st rest IH]; intros a; cbn [run_steps].
  - constructor.
  - rewrite events_bind. apply Forall_app. split.
    + apply do_step_not_construction.
    + apply IH.
Qed.

Lemma no_construction_no_window evs :
  Forall (fun e => construction_event e = false) evs ->
  window_creations evs = [] /\ filter is_await evs = [] /\ filter is_AcquireTask evs = [].
Proof.
  induction 1 as [|e evs He _ [IH1 [IH2 IH3]]]; [repeat split|].
  unfold window_creations in *. cbn [flat_map filter].
  rewrite IH1, IH2, IH3.
  destruct e; cbn in He |- *; try discriminate; repeat split.
Qed.

(** ** The constructor and the welcome page *)

Lemma CreateWelcomePage_run operation host a :
  CreateWelcomePage operation host a
  = (tt,
     {| m_WelcomePage := m_WelcomePage a;
        main_queue := main_queue a ++ [SetWelcomePage host];
        welcome := Some (configured (is_non_null operation));
        m_Xaml := m_Xaml a |},
     welcome_events operation).
Proof. destruct operation; reflexivity. Qed.

Lemma member_initialisers_run storageFolder fileExists a :
  state_after (member_initialisers storageFolder fileExists) a = a
  /\ Forall (fun e => construction_event e = true
                      /\ is_await e = false /\ is_AcquireTask e = false
                      /\ window_creations [e] = [])
       (events (member_initialisers storageFolder fileExists) a).
Proof. split; [reflexivity|]. cbn. repeat constructor. Qed.

Lemma Application_ctor_run env hInst storageFolder fileExists a :
  Application_ctor env hInst storageFolder fileExists a
  = (tt,
     (if fileExists then a
      else state_after
             (CreateWelcomePage
                (if has_value storageFolder then AcquireTask_result env else None)
                (welcome_host env)) a),
     events (member_initialisers storageFolder fileExists) a
     ++ (if has_SetPreferredAppMode env then [EvPreferredAppMode AllowDark] else [])
     ++ (if has_value storageFolder then [EvAcquireTask] else [])
     ++ (if fileExists then []
         else welcome_events
                (if has_value storageFolder then AcquireTask_result env else None))).
Proof.
  unfold Application_ctor, state_after, events.
  destruct fileExists, (has_SetPreferredAppMode env), (has_value storageFolder);
    cbn [negb]; unfold bind; cbn -[CreateWelcomePage];
    rewrite ?CreateWelcomePage_run; reflexivity.
Qed.

Lemma window_creations_app l1 l2 :
  window_creations (l1 ++ l2) = window_creations l1 ++ window_creations l2.
Proof. apply flat_map_app. Qed.

Lemma lifetime_events {A} (ctor : App A) steps a :
  window_creations (events (ctor ;; run_steps steps) a) = window_creations (events ctor a)
  /\ filter is_await (events (ctor ;; run_steps steps) a) = filter is_await (events ctor a)
  /\ filter is_AcquireTask (events (ctor ;; run_steps steps) a)
     = filter is_AcquireTask (events ctor a).
Proof.
  rewrite events_bind, window_creations_app, !filter_app.
  destruct (no_construction_no_window _
              (run_steps_not_construction steps (state_after ctor a))) as [-> [-> ->]].
  rewrite !app_nil_r. repeat split.
Qed.

Lemma Application_ctor_events env hInst storageFolder fileExists a :
  let op := if has_value storageFolder then AcquireTask_result env else None in
  let evs := events (Application_ctor env hInst storageFolder fileExists) a in
  window_creations evs = (if fileExists then [] else [(WelcomePage, center)])
  /\ filter is_await evs
     = (if fileExists then []
        else match op with
             | Some o => [EvAwaitOperation o; EvAwaitStartupEnable]
             | None => []
             end)
  /\ filter is_AcquireTask evs = (if has_value storageFolder then [EvAcquireTask] else []).
Proof.
  cbv zeta. unfold events at 1 2 3. rewrite Application_ctor_run. cbn [snd].
  destruct fileExists, (has_SetPreferredAppMode env), (has_value storageFolder);
    try destruct (AcquireTask_result env); repeat split.
Qed.

(** C5.  Constructed with [fileExists = true], the application builds no
    welcome window, neither in the constructor ([CreateWelcomePage] is not
    called: the constructor leaves the state as it was, with no page and
    no callable queued) nor at any later step; and whatever the
    arguments, a welcome window is built exactly when [fileExists] is
    false. *)
Theorem no_welcome_window_when_file_exists
    (env : environment) (hInst : HINSTANCE) (storageFolder : option string)
    (a : Application) (steps : list step) :
  let ctor := Application_ctor env hInst storageFolder true in
  window_creations (events (ctor ;; run_steps steps) a) = []
  /\ state_after ctor a = a
  /\ (forall fileExists,
        window_creations
          (events (Application_ctor env hInst storageFolder fileExists ;; run_steps steps) a)
        = if fileExists then [] else [(WelcomePage, center)]).
Proof.
  cbv zeta. split; [|split].
  - destruct (lifetime_events (Application_ctor env hInst storageFolder true) steps a)
      as [-> _].
    apply (Application_ctor_events env hInst storageFolder true a).
  - unfold state_after. rewrite Application_ctor_run. reflexivity.
  - intros fileExists.
    destruct (lifetime_events (Application_ctor env hInst storageFolder fileExists) steps a)
      as [-> _].
    apply (Application_ctor_events env hInst storageFolder fileExists a).
Qed.

(** C6.  Constructed with [fileExists = false] and no storage folder, the
    application builds the welcome window; [AcquireTask] is not called,
    [CreateWelcomePage] receives the null operation, and nothing is
    awaited, in the constructor or later; the [Closed] handler captures
    [hasStartup = false]. *)
Theorem welcome_window_without_startup_task
    (env : environment) (hInst : HINSTANCE) (a : Application) (steps : list step) :
  let ctor := Application_ctor env hInst None false in
  let evs := events (ctor ;; run_steps steps) a in
  window_creations evs = [(WelcomePage, center)]
  /\ filter is_AcquireTask evs = []
  /\ filter is_await evs = []
  /\ events ctor a
     = events (member_initialisers None false) a
       ++ (if has_SetPreferredAppMode env then [EvPreferredAppMode AllowDark] else [])
       ++ events (CreateWelcomePage None (welcome_host env)) a
  /\ state_after ctor a = state_after (CreateWelcomePage None (welcome_host env)) a
  /\ events (CreateWelcomePage None (welcome_host env)) a
     = [EvCreateXamlWindow WelcomePage center]
  /\ Closed_registered (state_after ctor a) = Some false.
Proof.
  cbv zeta.
  destruct (lifetime_events (Application_ctor env hInst None false) steps a)
    as [-> [-> ->]].
  destruct (Application_ctor_events env hInst None false a) as [Hw [Ha Hq]].
  cbv zeta in Hw, Ha, Hq. cbn [has_value] in Ha, Hq.
  split; [exact Hw|]. split; [exact Hq|]. split; [exact Ha|].
  unfold events, state_after. rewrite Application_ctor_run.
  cbn [has_value fst snd]. unfold state_after. rewrite CreateWelcomePage_run.
  repeat split.
Qed.

(** C2.  Given a non-null operation, [CreateWelcomePage] awaits it first,
    then awaits [m_Startup.Enable()], and only then builds the welcome
    window; nothing that runs later (no handler of the page, no callable
    of the main thread, no other member function) awaits again, so over
    the life of an application constructed with that operation it is
    awaited exactly once. *)
Theorem operation_awaited_once_before_window
    (op : AsyncOperation) (host : HWND) (a : Application) (steps : list step) :
  (exists later,
      events (CreateWelcomePage (Some op) host ;; run_steps steps) a
      = [EvAwaitOperation op; EvAwaitStartupEnable; EvCreateXamlWindow WelcomePage center]
        ++ later
      /\ filter is_await later = [])
  /\ (forall (hInst : HINSTANCE) (folder : string) (dark : bool),
        filter is_await
          (events
             (Application_ctor
                {| has_SetPreferredAppMode := dark; AcquireTask_result := Some op;
                   welcome_host := host |}
                hInst (Some folder) false ;; run_steps steps) a)
        = [EvAwaitOperation op; EvAwaitStartupEnable]).
Proof.
  split.
  - exists (events (run_steps steps)
              (state_after (CreateWelcomePage (Some op) host) a)).
    split.
    + rewrite events_bind. unfold events at 1. rewrite CreateWelcomePage_run. reflexivity.
    + apply no_construction_no_window, run_steps_not_construction.
  - intros hInst folder dark.
    destruct (lifetime_events
                (Application_ctor
                   {| has_SetPreferredAppMode := dark; AcquireTask_result := Some op;
                      welcome_host := host |} hInst (Some folder) false) steps a)
      as [_ [-> _]].
    apply (Application_ctor_events
             {| has_SetPreferredAppMode := dark; AcquireTask_result := Some op;
                welcome_host := host |} hInst (Some folder) false a).
Qed.

(** ** Approval and dismissal of the welcome page *)

Lemma filter_none {A} (p : A -> bool) l :
  Forall (fun x => p x = false) l -> filter p l = [].
Proof.
  induction 1 as [|x l Hx _ IH]; [reflexivity|].
  cbn. rewrite Hx. exact IH.
Qed.

Lemma forallb_snoc {A} (p : A -> bool) l x :
  forallb p (l ++ [x]) = forallb p l && p x.
Proof. rewrite forallb_app. cbn. rewrite andb_true_r. reflexivity. Qed.

Lemma pending_approvals_snoc q t :
  pending_approvals (q ++ [t])
  = (pending_approvals q + (if is_WelcomeApproved t then 1 else 0))%nat.
Proof.
  unfold pending_approvals. rewrite filter_app, length_app. cbn.
  destruct (is_WelcomeApproved t); reflexivity.
Qed.

(** Once revoked, always revoked; and then no step runs the closed path. *)
Lemma do_step_Closed_revoked st a :
  Closed_revoked a ->
  Closed_revoked (state_after (do_step st) a)
  /\ Forall (fun e => closed_path_event e = false) (events (do_step st) a).
Proof.
  unfold Closed_revoked, Closed_registered. intros [Hc Hq].
  destruct st as [e| |ts| |]; cbn [do_step].
  - unfold state_after, events. rewrite raise_event_run.
    destruct (welcome a) as [c|] eqn:W; [|cbn; rewrite W; auto].
    destruct e.
    + rewrite Hc. cbn. rewrite W. auto.
    + cbn. rewrite W. destruct (on_LiberapayOpenRequested c); repeat constructor; auto.
    + cbn. rewrite W. destruct (on_DiscordJoinRequested c); repeat constructor; auto.
    + destruct (on_ConfigEditRequested c); cbn; rewrite W, ?forallb_snoc, ?Hq; auto.
    + destruct (on_LicenseApproved c); cbn; rewrite ?W, ?forallb_snoc, ?Hq;
        repeat constructor; auto.
  - rewrite events_bind, state_after_bind. cbn.
    destruct (main_queue a) as [|t q] eqn:Q; [cbn; rewrite Q; auto|].
    rewrite events_bind, state_after_bind. cbn.
    cbn in Hq. apply andb_true_iff in Hq. destruct Hq as [Ht Hq].
    destruct t as [h|hs| |]; [|discriminate| |];
      unfold state_after, events;
      rewrite ?run_SetWelcomePage, ?run_EditConfig, ?run_WelcomeApproved;
      cbn; repeat constructor; auto.
  - cbn. auto.
  - cbn. repeat constructor; auto.
  - unfold state_after, events, BringWelcomeToFront, bind, get, emit, ret. cbn.
    destruct (m_WelcomePage a =? nullptr); cbn; repeat constructor; auto.
Qed.

Lemma run_steps_Closed_revoked steps : forall a,
  Closed_revoked a ->
  Closed_revoked (state_after (run_steps steps) a)
  /\ Forall (fun e => closed_path_event e = false) (events (run_steps steps) a).
Proof.
  induction steps as [|st rest IH]; intros a Ha; cbn [run_steps].
  - split; [exact Ha | constructor].
  - rewrite events_bind, state_after_bind.
    destruct (do_step_Closed_revoked st a Ha) as [Ha' He].
    destruct (IH _ Ha') as [Ha'' He'].
    split; [exact Ha'' | apply Forall_app; split; assumption].
Qed.

(** Saves made and approvals still queued add up to the approvals queued
    at the start, as long as [LicenseApproved] is not raised again. *)
Lemma do_step_saves st a :
  raises_LicenseApproved st = false ->
  (List.length (filter is_SaveConfig (events (do_step st) a))
   + pending_approvals (main_queue (state_after (do_step st) a)))%nat
  = pending_approvals (main_queue a).
Proof.
  intros Hst. destruct st as [e| |ts| |]; cbn [do_step].
  - unfold state_after, events. rewrite raise_event_run.
    destruct (welcome a) as [c|]; [|reflexivity].
    destruct e; try discriminate.
    + destruct (on_Closed c); cbn [fst snd set_main_queue main_queue filter List.length];
        rewrite ?pending_approvals_snoc; cbn [is_WelcomeApproved]; lia.
    + destruct (on_LiberapayOpenRequested c); reflexivity.
    + destruct (on_DiscordJoinRequested c); reflexivity.
    + destruct (on_ConfigEditRequested c);
        cbn [fst snd set_main_queue main_queue filter List.length];
        rewrite ?pending_approvals_snoc; cbn [is_WelcomeApproved]; lia.
  - rewrite events_bind, state_after_bind. cbn.
    destruct (main_queue a) as [|t q] eqn:Q; [cbn; rewrite Q; reflexivity|].
    rewrite events_bind, state_after_bind. cbn.
    destruct t as [h|hs| |]; unfold state_after, events;
      rewrite ?run_SetWelcomePage, ?run_EditConfig, ?run_WelcomeApproved, ?run_WelcomeClosed;
      cbn [fst snd]; try reflexivity.
    rewrite !filter_app.
    rewrite (filter_none is_SaveConfig (events (Shutdown 1) _))
      by (apply Shutdown_events_Forall; intros; reflexivity).
    destruct hs; reflexivity.
  - reflexivity.
  - reflexivity.
  - unfold state_after, events, BringWelcomeToFront, bind, get, emit, ret. cbn.
    destruct (m_WelcomePage a =? nullptr); reflexivity.
Qed.

Lemma run_steps_saves steps : forall a,
  forallb (fun st => negb (raises_LicenseApproved st)) steps = true ->
  (List.length (filter is_SaveConfig (events (run_steps steps) a))
   + pending_approvals (main_queue (state_after (run_steps steps) a)))%nat
  = pending_approvals (main_queue a).
Proof.
  induction steps as [|st rest IH]; intros a Hs; cbn [run_steps].
  - reflexivity.
  - cbn in Hs. apply andb_true_iff in Hs. destruct Hs as [Hst Hrest].
    apply negb_true_iff in Hst.
    rewrite events_bind, state_after_bind, filter_app, length_app.
    rewrite <- (do_step_saves st a Hst).
    rewrite <- (IH (state_after (do_step st) a) Hrest). lia.
Qed.

(** C3.  When [LicenseApproved] is raised (its handler being registered,
    and no [Closed] having been raised before), the handler has revoked
    the [Closed] registration by the time it returns, and has queued the
    one callable that saves the configuration.  Whatever happens
    afterwards, the closed path (disable auto-start, delete the
    configuration file, [Shutdown(1)]) never runs; and if the approval is
    not raised again, at most one save is made, exactly one once the main
    thread has emptied its queue. *)
Theorem LicenseApproved_revokes_Closed (a : Application) (later : list step) :
  LicenseApproved_registered a = true ->
  forallb (fun t => negb (is_WelcomeClosed t || is_WelcomeApproved t)) (main_queue a) = true ->
  forallb (fun st => negb (raises_LicenseApproved st)) later = true ->
  let handler := raise_event LicenseApproved in
  let a' := state_after handler a in
  let evs := events (run_steps later) a' in
  events handler a = [EvRevokeClosed]
  /\ Closed_registered a' = None
  /\ main_queue a' = main_queue a ++ [WelcomeApproved]
  /\ Forall (fun e => closed_path_event e = false) evs
  /\ Closed_registered (state_after (run_steps later) a') = None
  /\ (List.length (filter is_SaveConfig evs) <= 1)%nat
  /\ (main_queue (state_after (run_steps later) a') = [] ->
      List.length (filter is_SaveConfig evs) = 1%nat).
Proof.
  intros Hreg Hq Hlater. cbv zeta.
  unfold LicenseApproved_registered in Hreg.
  destruct (welcome a) as [c|] eqn:W; [|discriminate].
  assert (Hrun : raise_event LicenseApproved a
                 = (tt,
                    set_main_queue (main_queue a ++ [WelcomeApproved])
                      (set_welcome
                         (Some (with_Closed None c)) a),
                    [EvRevokeClosed])).
  { rewrite raise_event_run, W, Hreg. reflexivity. }
  assert (Hst : state_after (raise_event LicenseApproved) a
                = set_main_queue (main_queue a ++ [WelcomeApproved])
                    (set_welcome
                       (Some (with_Closed None c)) a))
    by (unfold state_after; rewrite Hrun; reflexivity).
  assert (Hev0 : events (raise_event LicenseApproved) a = [EvRevokeClosed])
    by (unfold events; rewrite Hrun; reflexivity).
  rewrite Hst, Hev0. clear Hrun Hst Hev0.
  set (a' := set_main_queue _ _).
  assert (Hno : forallb (fun t => negb (is_WelcomeClosed t)) (main_queue a) = true
                /\ pending_approvals (main_queue a) = 0%nat).
  { clear -Hq. unfold pending_approvals.
    induction (main_queue a) as [|t q IH]; [split; reflexivity|].
    cbn in Hq. apply andb_true_iff in Hq. destruct Hq as [Ht Hq].
    destruct (IH Hq) as [IH1 IH2].
    destruct t; cbn in Ht |- *; try discriminate; auto. }
  destruct Hno as [Hclosed Hpend].
  assert (Hrev : Closed_revoked a').
  { split; [reflexivity|]. subst a'. cbn. rewrite forallb_snoc, Hclosed. reflexivity. }
  destruct (run_steps_Closed_revoked later a' Hrev) as [[Hrev' _] Hev].
  pose proof (run_steps_saves later a' Hlater) as Hsaves.
  assert (Hp' : pending_approvals (main_queue a') = 1%nat).
  { subst a'. cbn [set_main_queue main_queue].
    rewrite pending_approvals_snoc, Hpend. reflexivity. }
  rewrite Hp' in Hsaves.
  repeat split; try assumption; try reflexivity.
  - lia.
  - intros Hempty. rewrite Hempty in Hsaves. cbn in Hsaves. lia.
Qed.

(** ** Dependency versions *)

Lemma lor_shiftl_add a b n :
  0 <= n -> 0 <= b < 2 ^ n -> Z.lor (Z.shiftl a n) b = a * 2 ^ n + b.
Proof.
  intros Hn Hb.
  assert (Hland : Z.land (Z.shiftl a n) b = 0).
  { apply Z.bits_inj'. intros k Hk.
    rewrite Z.land_spec, Z.bits_0.
    destruct (Z.lt_ge_cases k n) as [L|L].
    - rewrite Z.shiftl_spec_low by assumption. reflexivity.
    - rewrite <- (Z.mod_small b (2 ^ n)) by assumption.
      rewrite Z.mod_pow2_bits_high by lia. apply andb_false_r. }
  rewrite <- Z.lxor_lor by assumption.
  rewrite <- Z.add_nocarry_lxor by assumption.
  rewrite Z.shiftl_mul_pow2 by assumption. reflexivity.
Qed.

Lemma Version_value v :
  USHORT_fields v ->
  Version v = Major v * 2 ^ 48 + Minor v * 2 ^ 32 + Build v * 2 ^ 16 + Revision v.
Proof.
  intros (Hr & Hb & Hmi & Hma). unfold Version.
  rewrite (lor_shiftl_add (Build v) (Revision v) 16) by lia.
  rewrite (lor_shiftl_add (Minor v) _ 32) by lia.
  rewrite (lor_shiftl_add (Major v) _ 48) by lia.
  lia.
Qed.

(** C4.  A descriptor is satisfied by an installed version exactly when
    the installed version is greater than or equal to it in the
    lexicographic order on (major, minor, build, revision); the version
    the constructor asks for the CRT, 14.0.30704.0, is satisfied by
    14.0.30704.1 and not by 13.9.99999.99.  On versions whose fields are
    16-bit, this is the order of the 64-bit [Version] field. *)
Theorem satisfied_by_is_lexicographic :
  (forall d v,
     satisfied_by d v = true <->
     Major d < Major v
     \/ Major d = Major v
        /\ (Minor d < Minor v
            \/ Minor d = Minor v
               /\ (Build d < Build v
                   \/ Build d = Build v /\ Revision d <= Revision v)))
  /\ satisfied_by UwpCRT_version
       {| Revision := 1; Build := 30704; Minor := 0; Major := 14 |} = true
  /\ satisfied_by UwpCRT_version
       {| Revision := 99; Build := 99999; Minor := 9; Major := 13 |} = false
  /\ (forall d v, USHORT_fields d -> USHORT_fields v ->
        satisfied_by d v = (Version d <=? Version v)).
Proof.
  split; [|split; [reflexivity|split; [reflexivity|]]].
  - intros d v. unfold satisfied_by.
    destruct (Z.compare_spec (Major v) (Major d));
      [destruct (Z.compare_spec (Minor v) (Minor d));
         [destruct (Z.compare_spec (Build v) (Build d)); [rewrite Z.leb_le| |]| |]| |];
      split; intros; try discriminate; try reflexivity; lia.
  - intros d v Hd Hv. rewrite (Version_value d Hd), (Version_value v Hv).
    destruct Hd as (Hr & Hb & Hmi & Hma). destruct Hv as (Hr' & Hb' & Hmi' & Hma').
    change (2 ^ 16) with 65536 in *.
    change (2 ^ 32) with 4294967296. change (2 ^ 48) with 281474976710656.
    unfold satisfied_by.
    destruct (Z.compare_spec (Major v) (Major d));
      [destruct (Z.compare_spec (Minor v) (Minor d));
         [destruct (Z.compare_spec (Build v) (Build d))| |]| |];
      symmetry; rewrite ?Z.leb_le, ?Z.leb_gt;
      try (destruct (Z.leb_spec (Revision d) (Revision v)); rewrite ?Z.leb_le, ?Z.leb_gt);
      lia.
Qed.

(** ** The statements at the sample inputs *)

Lemma LicenseApproved_revokes_Closed_witness :
  let a := state_after (CreateWelcomePage (Some (AsyncOp 0)) 77) sample_start in
  let later := [RunMainTask; Raise Closed; RunMainTask; RunMainTask;
                ThreadsBecome sample_threads; Raise Closed; RunMainTask] in
  LicenseApproved_registered a = true
  /\ forallb (fun t => negb (is_WelcomeClosed t || is_WelcomeApproved t)) (main_queue a) = true
  /\ forallb (fun st => negb (raises_LicenseApproved st)) later = true
  /\ events (run_steps later) (state_after (raise_event LicenseApproved) a)
     = [EvSaveConfig; EvRemoveHideTrayIconOverride;
        EvSendNotification IDS_WELCOME_NOTIFICATION]
  /\ List.length
       (filter is_SaveConfig
          (events (run_steps later) (state_after (raise_event LicenseApproved) a)))
     = 1%nat.
Proof.
  cbv zeta.
  split; [reflexivity | split; [reflexivity | split; [reflexivity | split; [reflexivity |]]]].
  apply (LicenseApproved_revokes_Closed
           (state_after (CreateWelcomePage (Some (AsyncOp 0)) 77) sample_start)
           [RunMainTask; Raise Closed; RunMainTask; RunMainTask;
            ThreadsBecome sample_threads; Raise Closed; RunMainTask]
           eq_refl eq_refl eq_refl).
  reflexivity.
Defined.

(** [Shutdown(0)] over the sample threads: the second window refuses, is
    brought to the front, the fifth is still asked, and no quit message
    is posted. *)
Example Shutdown_with_a_refusal :
  events (Shutdown 0) (set_Xaml sample_threads sample_start)
  = [EvLock 1; EvResumeForeground (ThreadDispatcher 1); EvTryClose 101; EvUnlock 1;
     EvLock 2; EvResumeForeground (ThreadDispatcher 2); EvTryClose 102;
     EvSetForegroundWindow 102; EvUnlock 2;
     EvLock 3; EvUnlock 3;
     EvLock 4; EvUnlock 4;
     EvLock 5; EvResumeForeground (ThreadDispatcher 5); EvTryClose 105; EvUnlock 5].
Proof. reflexivity. Qed.

(** The constructor of a first run with a storage folder. *)
Example first_run_with_storage_folder :
  events
    (Application_ctor
       {| has_SetPreferredAppMode := true; AcquireTask_result := Some (AsyncOp 0);
          welcome_host := 77 |} 1 (Some "AppData"%string) false)
    sample_start
  = [EvDynamicDependency "Microsoft.VCLibs.140.00_8wekyb3d8bbwe" UwpCRT_version true;
     EvDynamicDependency "Microsoft.UI.Xaml.2.7_8wekyb3d8bbwe" WinUI_version true;
     EvConfigManager (Some "AppData"%string) false;
     EvWorker (Some "AppData"%string);
     EvCreateDispatcherController; EvCreateXamlApp; EvCreateXamlManager;
     EvMainAppWindow true true; EvXamlThreadPool;
     EvPreferredAppMode AllowDark;
     EvAcquireTask;
     EvAwaitOperation (AsyncOp 0); EvAwaitStartupEnable;
     EvCreateXamlWindow WelcomePage center].
Proof. reflexivity. Qed.

(** A [Build] of 99999 does not fit the 16-bit field; what fits of it,
    34463, leaves 13.9 below 14.0 all the same. *)
Example UwpCRT_not_satisfied_by_13_9 :
  99999 mod 2 ^ 16 = 34463
  /\ satisfied_by UwpCRT_version
       {| Revision := 99; Build := 99999 mod 2 ^ 16; Minor := 9; Major := 13 |} = false.
Proof. split; reflexivity. Qed.

(** A first run without storage folder, dismissed: the page is built, the
    main thread records its handle, [Closed] is raised and its callable
    deletes the configuration file and posts the quit message with 1. *)
Example first_run_dismissed :
  let run :=
    Application_ctor
      {| has_SetPreferredAppMode := false; AcquireTask_result := None; welcome_host := 77 |}
      1 None false ;;
    run_steps [RunMainTask; Raise Closed; RunMainTask] in
  filter (fun e => negb (construction_event e)) (events run sample_start)
  = [EvDeleteConfigFile;
     EvResumeForeground MainDispatcherQueue; EvShutdownQueueAsync; EvPostQuitMessage 1]
  /\ window_creations (events run sample_start) = [(WelcomePage, center)]
  /\ m_WelcomePage (state_after run sample_start) = nullptr.
Proof. repeat split. Qed.

(** The same first run, approved: the handle is recorded, then cleared
    when the approval's callable runs; the [Closed] that follows reaches
    no handler. *)
Example first_run_approved :
  let built :=
    Application_ctor
      {| has_SetPreferredAppMode := false; AcquireTask_result := None; welcome_host := 77 |}
      1 None false ;;
    run_steps [RunMainTask] in
  let run := built ;; run_steps [Raise LicenseApproved; Raise Closed; RunMainTask; RunMainTask] in
  m_WelcomePage (state_after built sample_start) = 77
  /\ filter (fun e => negb (construction_event e)) (events run sample_start)
     = [EvRevokeClosed; EvSaveConfig; EvRemoveHideTrayIconOverride;
        EvSendNotification IDS_WELCOME_NOTIFICATION]
  /\ m_WelcomePage (state_after run sample_start) = nullptr
  /\ main_queue (state_after run sample_start) = [].
Proof. repeat split. Qed.

(** [BringWelcomeToFront] before and after the handle is recorded. *)
Example BringWelcomeToFront_samples :
  BringWelcomeToFront sample_start = (false, sample_start, [])
  /\ BringWelcomeToFront (set_WelcomePage 77 sample_start)
     = (true, set_WelcomePage 77 sample_start, [EvSetForegroundWindow 77]).
Proof. split; reflexivity. Qed.

(** ** More on the main message loop *)

Section MessageLoopMore.

Variable PreTranslateMessage : MSG -> bool.

Lemma static_cast_int_range w :
  - 2 ^ 31 <= static_cast_int w < 2 ^ 31.
Proof.
  unfold static_cast_int. cbv zeta.
  pose proof (Z.mod_pos_bound w (2 ^ 32) ltac:(lia)) as Hb.
  destruct (Z.ltb_spec (w mod 2 ^ 32) (2 ^ 31)); lia.
Qed.

Lemma peek_loop_cases msgs :
  (existsb (fun m => message m =? WM_QUIT) msgs = false
   /\ snd (peek_loop PreTranslateMessage msgs) = None)
  \/ (existsb (fun m => message m =? WM_QUIT) msgs = true
      /\ exists q, In q msgs /\ message q = WM_QUIT
                   /\ snd (peek_loop PreTranslateMessage msgs)
                      = Some (static_cast_int (wParam q))).
Proof.
  induction msgs as [|m ms IH]; [left; split; reflexivity|].
  cbn [peek_loop existsb].
  destruct (Z.eqb_spec (message m) WM_QUIT) as [E|E]; cbn [negb orb].
  - right. split; [reflexivity|]. exists m. repeat split; [left; reflexivity | exact E].
  - destruct (peek_loop PreTranslateMessage ms) as [evs r]. cbn [snd] in *.
    destruct IH as [[H1 H2]|[H1 [q [Hin [Hq Hr]]]]].
    + left. split; assumption.
    + right. split; [assumption|]. exists q. repeat split; [right|..]; assumption.
Qed.

Lemma Run_cases script :
  (existsb carries_quit script = false
   /\ snd (Run PreTranslateMessage script) = None)
  \/ (existsb carries_quit script = true
      /\ exists w q, In w script /\ wait_result w = WAIT_OBJECT_0
                     /\ In q (pending w) /\ message q = WM_QUIT
                     /\ snd (Run PreTranslateMessage script)
                        = Some (static_cast_int (wParam q))).
Proof.
  induction script as [|w ws IH]; [left; split; reflexivity|].
  cbn [Run existsb]. unfold carries_quit at 1 3.
  destruct (Z.eqb_spec (wait_result w) WAIT_OBJECT_0) as [E0|E0]; cbn [andb].
  - destruct (peek_loop_cases (pending w)) as [[H1 H2]|[H1 [q [Hin [Hq Hr]]]]];
      rewrite H1; cbn [orb];
      destruct (peek_loop PreTranslateMessage (pending w)) as [evs r];
      cbn [snd] in *; subst r.
    + destruct (Run PreTranslateMessage ws) as [evs' r']. cbn [snd] in *.
      destruct IH as [[I1 I2]|[I1 [w' [q [Hw [H0 [Hin [Hq Hr]]]]]]]].
      * left. split; assumption.
      * right. split; [assumption|]. exists w', q.
        repeat split; [right|..]; assumption.
    + right. split; [reflexivity|]. exists w, q.
      repeat split; [left; reflexivity|..]; assumption.
  - assert (Hrest : forall evs,
              snd (let (evs', r) := Run PreTranslateMessage ws in
                   (EvMsgWaitForMultipleObjectsEx :: evs ++ evs', r))
              = snd (Run PreTranslateMessage ws))
      by (intros evs; destruct (Run PreTranslateMessage ws); reflexivity).
    assert (Hsnd : snd (if wait_result w =? WAIT_IO_COMPLETION
                        then let (evs', r) := Run PreTranslateMessage ws in
                             (EvMsgWaitForMultipleObjectsEx :: [] ++ evs', r)
                        else if wait_result w =? WAIT_FAILED
                        then let (evs', r) := Run PreTranslateMessage ws in
                             (EvMsgWaitForMultipleObjectsEx ::
                              (LastErrorHandle critical "Failed to enter alertable wait state!"
                               ++ MessagePrint critical
                                    "MsgWaitForMultipleObjectsEx returned an unexpected value!")
                              ++ evs', r)
                        else let (evs', r) := Run PreTranslateMessage ws in
                             (EvMsgWaitForMultipleObjectsEx ::
                              MessagePrint critical
                                "MsgWaitForMultipleObjectsEx returned an unexpected value!"
                              ++ evs', r))
                   = snd (Run PreTranslateMessage ws)).
    { destruct (wait_result w =? WAIT_IO_COMPLETION);
        [|destruct (wait_result w =? WAIT_FAILED)]; apply Hrest. }
    cbv zeta. rewrite Hsnd.
    destruct IH as [[I1 I2]|[I1 [w' [q [Hw [H0 [Hin [Hq Hr]]]]]]]].
    + left. split; assumption.
    + right. split; [assumption|]. exists w', q.
      repeat split; [right|..]; assumption.
Qed.

Lemma Run_returned (earlier later : list wakeup) (code : Z) :
  snd (Run PreTranslateMessage earlier) = Some code ->
  Run PreTranslateMessage (earlier ++ later) = Run PreTranslateMessage earlier.
Proof.
  induction earlier as [|w ws IH]; intros Hsome; [discriminate|].
  cbn [app Run] in Hsome |- *.
  destruct (wait_result w =? WAIT_OBJECT_0).
  - destruct (peek_loop PreTranslateMessage (pending w)) as [evs [c|]]; [reflexivity|].
    destruct (Run PreTranslateMessage ws) as [evs' r] eqn:R.
    cbn [snd] in Hsome. subst r. rewrite (IH eq_refl). reflexivity.
  - destruct (wait_result w =? WAIT_IO_COMPLETION);
      [|destruct (wait_result w =? WAIT_FAILED)];
      destruct (Run PreTranslateMessage ws) as [evs' r] eqn:R;
      cbn [snd] in Hsome; subst r; rewrite (IH eq_refl); reflexivity.
Qed.

(** X1.  [Run] returns only at a [WM_QUIT]: it returns exactly when some
    wake-up for messages carries one, the value returned is the [wParam]
    of such a message narrowed to [int], and so always fits an [int].
    Messages pending at a wake-up of another kind never make it return. *)
Theorem Run_returns_only_at_quit (script : list wakeup) :
  ((exists code, snd (Run PreTranslateMessage script) = Some code)
   <-> existsb carries_quit script = true)
  /\ (forall code,
        snd (Run PreTranslateMessage script) = Some code ->
        - 2 ^ 31 <= code < 2 ^ 31
        /\ exists w q, In w script /\ wait_result w = WAIT_OBJECT_0
                       /\ In q (pending w) /\ message q = WM_QUIT
                       /\ code = static_cast_int (wParam q)).
Proof.
  destruct (Run_cases script) as [[H1 H2]|[H1 [w [q [Hw [H0 [Hin [Hq Hr]]]]]]]].
  - split.
    + split; [intros [code Hc]; congruence | congruence].
    + intros code Hc. congruence.
  - split.
    + split; [intros _; exact H1 | intros _; eexists; exact Hr].
    + intros code Hc. rewrite Hr in Hc. injection Hc as <-.
      split; [apply static_cast_int_range|].
      exists w, q. repeat split; assumption.
Qed.

(** X2.  Once [Run] has returned, nothing that would have come later
    matters: the events and the exit code are those of the wake-ups up
    to the return. *)
Theorem Run_ignores_what_follows_the_return
    (earlier later : list wakeup) (code : Z) :
  snd (Run PreTranslateMessage earlier) = Some code ->
  Run PreTranslateMessage (earlier ++ later) = Run PreTranslateMessage earlier
  /\ snd (Run PreTranslateMessage (earlier ++ later)) = Some code.
Proof.
  intros Hc. rewrite (Run_returned earlier later code Hc). split; [reflexivity | exact Hc].
Qed.

Lemma Run_head (w : wakeup) (script : list wakeup) :
  Run PreTranslateMessage (w :: script)
  = match snd (Run PreTranslateMessage [w]) with
    | Some code => Run PreTranslateMessage [w]
    | None => (fst (Run PreTranslateMessage [w]) ++ fst (Run PreTranslateMessage script),
               snd (Run PreTranslateMessage script))
    end.
Proof.
  destruct (snd (Run PreTranslateMessage [w])) as [code|] eqn:E.
  - apply (Run_returned [w] script code E).
  - apply (Run_app PreTranslateMessage [w] script E).
Qed.

Lemma Run_io_completion (w : wakeup) :
  is_io_completion w = true ->
  Run PreTranslateMessage [w] = ([EvMsgWaitForMultipleObjectsEx], None).
Proof.
  unfold is_io_completion. intros E. cbn [Run].
  apply Z.eqb_eq in E. rewrite E. reflexivity.
Qed.

(** X3.  A wake-up by I/O completion does nothing but wait again: with
    those wake-ups left out, [Run] handles the same messages, logs the
    same, and returns the same; a run of such wake-ups alone is one wait
    per wake-up and no return. *)
Theorem Run_io_completion_only_waits (script : list wakeup) :
  filter (fun e => negb (is_wait e)) (fst (Run PreTranslateMessage script))
  = filter (fun e => negb (is_wait e))
      (fst (Run PreTranslateMessage (filter (fun w => negb (is_io_completion w)) script)))
  /\ snd (Run PreTranslateMessage script)
     = snd (Run PreTranslateMessage (filter (fun w => negb (is_io_completion w)) script))
  /\ (forallb is_io_completion script = true ->
      Run PreTranslateMessage script
      = (repeat EvMsgWaitForMultipleObjectsEx (List.length script), None)).
Proof.
  induction script as [|w ws [IH1 [IH2 IH3]]]; [repeat split|].
  cbn [filter forallb].
  destruct (is_io_completion w) eqn:Eio; cbn [negb andb].
  - rewrite (Run_head w ws), (Run_io_completion w Eio). cbn [fst snd app filter is_wait negb].
    split; [exact IH1|]. split; [exact IH2|].
    intros Hall. rewrite (IH3 Hall). reflexivity.
  - split; [|split; [|discriminate]].
    + rewrite (Run_head w ws), (Run_head w (filter _ ws)).
      destruct (snd (Run PreTranslateMessage [w])); [reflexivity|].
      cbn [fst]. rewrite !filter_app, IH1. reflexivity.
    + rewrite (Run_head w ws), (Run_head w (filter _ ws)).
      destruct (snd (Run PreTranslateMessage [w])); [reflexivity|].
      cbn [snd]. exact IH2.
Qed.

End MessageLoopMore.

(** X2 at a sample: the run returns 3 at its first wake-up. *)
Lemma Run_ignores_what_follows_the_return_witness :
  snd (Run sample_PreTranslateMessage
         [ {| wait_result := WAIT_OBJECT_0; pending := [quit_message 3] |} ]) = Some 3
  /\ Run sample_PreTranslateMessage
       ([ {| wait_result := WAIT_OBJECT_0; pending := [quit_message 3] |} ]
        ++ [ {| wait_result := WAIT_FAILED; pending := [] |};
             {| wait_result := WAIT_OBJECT_0; pending := [quit_message 4] |} ])
     = ([EvMsgWaitForMultipleObjectsEx], Some 3).
Proof.
  assert (H : snd (Run sample_PreTranslateMessage
                     [ {| wait_result := WAIT_OBJECT_0; pending := [quit_message 3] |} ])
              = Some 3) by reflexivity.
  split; [exact H|].
  exact (proj1 (Run_ignores_what_follows_the_return sample_PreTranslateMessage
                  [ {| wait_result := WAIT_OBJECT_0; pending := [quit_message 3] |} ]
                  [ {| wait_result := WAIT_FAILED; pending := [] |};
                    {| wait_result := WAIT_OBJECT_0; pending := [quit_message 4] |} ]
                  3 H)).
Defined.

(** ** More on Shutdown *)

(** X4.  The exit code given to [Shutdown] is the one [Run] returns: when
    every polled window agrees, the quit message [Shutdown(exitCode)]
    posts, read by the loop after any messages that are not [WM_QUIT],
    makes [Run] return [exitCode], for every [exitCode] that is an
    [int]. *)
Theorem Shutdown_exit_code_reaches_Run
    (PreTranslateMessage : MSG -> bool) (a : Application) (exitCode : Z)
    (before after : list MSG) (script : list wakeup) :
  - 2 ^ 31 <= exitCode < 2 ^ 31 ->
  forallb TryClose (polled_windows (m_Xaml a)) = true ->
  Forall (fun m => message m <> WM_QUIT) before ->
  snd (Run PreTranslateMessage
         ({| wait_result := WAIT_OBJECT_0;
             pending := before
                        ++ map quit_message (quit_codes (events (Shutdown exitCode) a))
                        ++ after |} :: script))
  = Some exitCode.
Proof.
  intros Hrange Hall Hb.
  assert (Hq : quit_codes (events (Shutdown exitCode) a) = [exitCode]).
  { rewrite Shutdown_events. unfold quit_codes. rewrite reading_app.
    fold (quit_codes (flat_map poll_events_of (m_Xaml a))).
    rewrite poll_posts_nothing, Hall. reflexivity. }
  rewrite Hq. cbn [map app].
  rewrite (Run_at_quit PreTranslateMessage before after (quit_message exitCode)
             script Hb eq_refl).
  cbn [snd]. rewrite (static_cast_int_quit_message exitCode Hrange). reflexivity.
Qed.

Lemma Shutdown_exit_code_reaches_Run_witness :
  - 2 ^ 31 <= -1 < 2 ^ 31
  /\ forallb TryClose (polled_windows (m_Xaml sample_start)) = true
  /\ Forall (fun m => message m <> WM_QUIT) [sample_message 0x0100]
  /\ snd (Run sample_PreTranslateMessage
            [ {| wait_result := WAIT_OBJECT_0;
                 pending := [sample_message 0x0100]
                            ++ map quit_message
                                 (quit_codes (events (Shutdown (-1)) sample_start))
                            ++ [] |} ])
     = Some (-1).
Proof.
  assert (H1 : - 2 ^ 31 <= -1 < 2 ^ 31) by lia.
  assert (H2 : forallb TryClose (polled_windows (m_Xaml sample_start)) = true)
    by reflexivity.
  assert (H3 : Forall (fun m => message m <> WM_QUIT) [sample_message 0x0100])
    by (repeat constructor; discriminate).
  split; [exact H1 | split; [exact H2 | split; [exact H3 |]]].
  exact (Shutdown_exit_code_reaches_Run sample_PreTranslateMessage sample_start (-1)
           [sample_message 0x0100] [] [] H1 H2 H3).
Defined.

Lemma poll_protocol_thread on t rest :
  poll_protocol None on (poll_events_of t ++ rest)
  = poll_protocol None
      (match polled_window t with
       | Some _ => Some (ThreadDispatcher (thread_id t))
       | None => on
       end) rest.
Proof.
  poll_cases t; cbn; rewrite ?Nat.eqb_refl; reflexivity.
Qed.

Lemma poll_protocol_threads threads : forall on, exists on', forall rest,
  poll_protocol None on (flat_map poll_events_of threads ++ rest)
  = poll_protocol None on' rest.
Proof.
  induction threads as [|t ts IH]; intros on.
  - exists on. reflexivity.
  - destruct (IH (match polled_window t with
                  | Some _ => Some (ThreadDispatcher (thread_id t))
                  | None => on
                  end)) as [on' Hon'].
    exists on'. intros rest. cbn [flat_map].
    rewrite <- app_assoc, poll_protocol_thread. apply Hon'.
Qed.

(** X6.  [Shutdown] keeps its locks in order: it holds at most one
    thread's lock at a time and none at the end; it asks a window to
    close only under that thread's lock and after resuming on that
    thread's dispatcher; and it shuts the dispatcher queue down and posts
    the quit message only after the last lock is released and after
    resuming on the main dispatcher queue. *)
Theorem Shutdown_follows_poll_protocol (exitCode : Z) (a : Application) :
  poll_protocol None None (events (Shutdown exitCode) a) = true.
Proof.
  rewrite Shutdown_events.
  destruct (poll_protocol_threads (m_Xaml a) None) as [on' Hon'].
  rewrite Hon'.
  destruct (forallb TryClose (polled_windows (m_Xaml a))); reflexivity.
Qed.

(** X7.  With nothing to poll (no thread, or no thread whose window has
    content) [Shutdown] asks no window: it takes and releases each
    thread's lock and goes straight to shutting the queue down and
    posting the quit message. *)
Theorem Shutdown_with_nothing_to_poll (exitCode : Z) (a : Application) :
  polled_windows (m_Xaml a) = [] ->
  events (Shutdown exitCode) a
  = flat_map (fun t => [EvLock (thread_id t); EvUnlock (thread_id t)]) (m_Xaml a)
    ++ [EvResumeForeground MainDispatcherQueue; EvShutdownQueueAsync;
        EvPostQuitMessage exitCode].
Proof.
  intros Hnone. rewrite Shutdown_events, Hnone. cbn [forallb]. f_equal.
  induction (m_Xaml a) as [|t ts IH]; [reflexivity|].
  unfold polled_windows in Hnone. cbn [flat_map] in Hnone |- *.
  apply app_eq_nil in Hnone. destruct Hnone as [Ht Hts].
  rewrite (IH Hts). f_equal.
  unfold poll_events_of. destruct (polled_window t); [discriminate | reflexivity].
Qed.

Lemma Shutdown_with_nothing_to_poll_witness :
  let a :=
    set_Xaml
      [ {| thread_id := 3;
           GetCurrentWindow := Some {| handle := 103; page := false; TryClose := false |} |};
        {| thread_id := 4; GetCurrentWindow := None |} ] sample_start in
  polled_windows (m_Xaml a) = []
  /\ events (Shutdown 0) a
     = [EvLock 3; EvUnlock 3; EvLock 4; EvUnlock 4;
        EvResumeForeground MainDispatcherQueue; EvShutdownQueueAsync; EvPostQuitMessage 0].
Proof.
  cbv zeta. split; [reflexivity|].
  exact (Shutdown_with_nothing_to_poll 0
           (set_Xaml
              [ {| thread_id := 3;
                   GetCurrentWindow :=
                     Some {| handle := 103; page := false; TryClose := false |} |};
                {| thread_id := 4; GetCurrentWindow := None |} ] sample_start)
           eq_refl).
Defined.

(** The lock check is not met by every list of events. *)
Example poll_protocol_rejects :
  poll_protocol None None [EvLock 1; EvLock 2; EvUnlock 2; EvUnlock 1] = false
  /\ poll_protocol None None [EvTryClose 101] = false
  /\ poll_protocol None None
       [EvLock 1; EvResumeForeground (ThreadDispatcher 2); EvTryClose 101; EvUnlock 1] = false
  /\ poll_protocol None None
       [EvLock 1; EvResumeForeground MainDispatcherQueue; EvPostQuitMessage 0] = false
  /\ poll_protocol None None [EvLock 1] = false.
Proof. repeat split. Qed.

(** ** More on the main thread and the welcome page *)

Lemma do_RunMainTask a :
  do_step RunMainTask a
  = match main_queue a with
    | [] => (tt, a, [])
    | t :: q => run_main_task t (set_main_queue q a)
    end.
Proof.
  cbn [do_step]. unfold bind at 1, get. cbn.
  destruct (main_queue a) as [|t q]; [reflexivity|].
  unfold bind, modify.
  destruct (run_main_task t (set_main_queue q a)) as [[[] a2] e2]. reflexivity.
Qed.

Lemma do_RunMainTask_parts a :
  state_after (do_step RunMainTask) a
  = match main_queue a with
    | [] => a
    | t :: q => state_after (run_main_task t) (set_main_queue q a)
    end
  /\ events (do_step RunMainTask) a
     = match main_queue a with
       | [] => []
       | t :: q => events (run_main_task t) (set_main_queue q a)
       end.
Proof.
  unfold state_after, events. rewrite do_RunMainTask.
  destruct (main_queue a); split; reflexivity.
Qed.

(** The cases of a step, each with the state and the events it gives. *)
Ltac step_cases st a :=
  let e := fresh "e" in
  let c := fresh "c" in
  let W := fresh "W" in
  let t := fresh "t" in
  let q := fresh "q" in
  let Q := fresh "Q" in
  destruct st as [e| | | |]; unfold events, state_after;
  [ cbn [do_step]; rewrite raise_event_run; destruct (welcome a) as [c|] eqn:W; [destruct e|]
  | rewrite do_RunMainTask; destruct (main_queue a) as [|t q] eqn:Q;
    [|destruct t;
      rewrite ?run_SetWelcomePage, ?run_WelcomeClosed, ?run_EditConfig, ?run_WelcomeApproved]
  | cbn [do_step]
  | cbn [do_step]
  | cbn [do_step]; unfold BringWelcomeToFront, bind, get, emit, ret; cbn;
    destruct (m_WelcomePage a =? nullptr) ].

(** After [step_cases]: the cases of the handler flags, of a captured
    [hasStartup], and the queue as it was found. *)
Ltac destruct_flags :=
  repeat match goal with
         | H : main_queue _ = _ |- _ => rewrite ?H; clear H
         | H : welcome _ = _ |- _ => rewrite ?H; clear H
         end;
  repeat match goal with
         | |- context [on_Closed ?c] => destruct (on_Closed c)
         | |- context [on_LiberapayOpenRequested ?c] => destruct (on_LiberapayOpenRequested c)
         | |- context [on_DiscordJoinRequested ?c] => destruct (on_DiscordJoinRequested c)
         | |- context [on_ConfigEditRequested ?c] => destruct (on_ConfigEditRequested c)
         | |- context [on_LicenseApproved ?c] => destruct (on_LicenseApproved c)
         | h : bool |- _ => destruct h
         end.

(** X9.  The handle of the welcome window is not cached by
    [CreateWelcomePage] itself but by the callable it queues: with
    nothing queued before, the cached handle is unchanged until the main
    thread takes its turn and is the window's handle after it, and
    [BringWelcomeToFront] then brings that window to the front (unless
    the handle is null). *)
Theorem welcome_handle_cached_by_main_thread
    (operation : IAsyncOperation) (host : HWND) (a : Application) :
  main_queue a = [] ->
  let built := state_after (CreateWelcomePage operation host) a in
  let cached := state_after (CreateWelcomePage operation host ;; do_step RunMainTask) a in
  m_WelcomePage built = m_WelcomePage a
  /\ main_queue built = [SetWelcomePage host]
  /\ m_WelcomePage cached = host
  /\ main_queue cached = []
  /\ BringWelcomeToFront cached
     = (negb (host =? nullptr), cached,
        if host =? nullptr then [] else [EvSetForegroundWindow host]).
Proof.
  intros Hq. cbv zeta. rewrite state_after_bind.
  assert (Hb : state_after (CreateWelcomePage operation host) a
               = {| m_WelcomePage := m_WelcomePage a;
                    main_queue := [SetWelcomePage host];
                    welcome := Some (configured (is_non_null operation));
                    m_Xaml := m_Xaml a |}).
  { unfold state_after. rewrite CreateWelcomePage_run, Hq. reflexivity. }
  rewrite Hb. destruct (do_RunMainTask_parts
                          {| m_WelcomePage := m_WelcomePage a;
                             main_queue := [SetWelcomePage host];
                             welcome := Some (configured (is_non_null operation));
                             m_Xaml := m_Xaml a |}) as [-> _].
  cbn [main_queue]. unfold state_after. rewrite run_SetWelcomePage. cbn.
  repeat split.
  unfold BringWelcomeToFront, bind, get, emit, ret. cbn.
  destruct (host =? nullptr); reflexivity.
Qed.

Lemma welcome_handle_cached_by_main_thread_witness :
  main_queue sample_start = []
  /\ m_WelcomePage
       (state_after (CreateWelcomePage None 77 ;; do_step RunMainTask) sample_start) = 77
  /\ m_WelcomePage (state_after (CreateWelcomePage None 77) sample_start) = nullptr.
Proof.
  split; [reflexivity | split; [|reflexivity]].
  apply (welcome_handle_cached_by_main_thread None 77 sample_start eq_refl).
Defined.

(** X10.  Once the callable of the approval or of the dismissal has run,
    the cached handle is null, so [BringWelcomeToFront] answers false and
    calls nothing; the callable of an edit request leaves the handle as
    it was. *)
Theorem BringWelcomeToFront_after_the_page_is_gone (a : Application) (hasStartup : bool) :
  let approved := state_after (run_main_task WelcomeApproved) a in
  let dismissed := state_after (run_main_task (WelcomeClosed hasStartup)) a in
  BringWelcomeToFront approved = (false, approved, [])
  /\ BringWelcomeToFront dismissed = (false, dismissed, [])
  /\ m_WelcomePage (state_after (run_main_task EditConfig) a) = m_WelcomePage a.
Proof.
  cbv zeta. unfold state_after.
  rewrite run_WelcomeApproved, run_WelcomeClosed, run_EditConfig.
  repeat split.
Qed.

(** X11.  [AcquireTask] is called exactly when a storage folder is given,
    whether or not the configuration file exists; when the file exists
    the operation so acquired is dropped: nothing awaits it, in the
    constructor or later. *)
Theorem AcquireTask_iff_storage_folder
    (env : environment) (hInst : HINSTANCE) (storageFolder : option string)
    (fileExists : bool) (a : Application) (steps : list step) :
  filter is_AcquireTask
    (events (Application_ctor env hInst storageFolder fileExists ;; run_steps steps) a)
  = (if has_value storageFolder then [EvAcquireTask] else [])
  /\ filter is_await
       (events (Application_ctor env hInst storageFolder true ;; run_steps steps) a)
     = [].
Proof.
  split.
  - destruct (lifetime_events (Application_ctor env hInst storageFolder fileExists) steps a)
      as [_ [_ ->]].
    apply (Application_ctor_events env hInst storageFolder fileExists a).
  - destruct (lifetime_events (Application_ctor env hInst storageFolder true) steps a)
      as [_ [-> _]].
    apply (Application_ctor_events env hInst storageFolder true a).
Qed.

Lemma Shutdown_filter_none (p : event -> bool) exitCode a :
  (forall t, p (EvLock t) = false) -> (forall t, p (EvUnlock t) = false) ->
  (forall d, p (EvResumeForeground d) = false) -> (forall h, p (EvTryClose h) = false) ->
  (forall h, p (EvSetForegroundWindow h) = false) ->
  p EvShutdownQueueAsync = false -> p (EvPostQuitMessage exitCode) = false ->
  filter p (events (Shutdown exitCode) a) = [].
Proof.
  intros. apply filter_none. apply Shutdown_events_Forall; assumption.
Qed.

(** X12.  The configuration is saved, the tray-icon override removed and
    the welcome notification sent only together and in this order: over
    any steps, the calls of these three kinds are a repetition of that
    triple, once per approval callable that ran. *)
Theorem approval_effects_come_together (steps : list step) (a : Application) :
  exists k,
    filter approval_effect (events (run_steps steps) a)
    = List.concat (repeat [EvSaveConfig; EvRemoveHideTrayIconOverride;
                      EvSendNotification IDS_WELCOME_NOTIFICATION] k)
    /\ List.length (filter is_SaveConfig (events (run_steps steps) a)) = k
    /\ (k <= List.length (filter is_WelcomeApproved (main_queue a))
             + List.length (filter raises_LicenseApproved steps))%nat.
Proof.
  revert a. induction steps as [|st rest IH]; intros a.
  - exists 0%nat. repeat split. cbn. lia.
  - cbn [run_steps]. rewrite events_bind, !filter_app.
    destruct (IH (state_after (do_step st) a)) as [k [Hk [Hs Hle]]].
    rewrite Hk, length_app, Hs.
    assert (Hstep :
      (filter approval_effect (events (do_step st) a) = []
       /\ filter is_SaveConfig (events (do_step st) a) = []
       /\ (List.length (filter is_WelcomeApproved
                          (main_queue (state_after (do_step st) a)))
           <= List.length (filter is_WelcomeApproved (main_queue a))
              + (if raises_LicenseApproved st then 1 else 0))%nat)
      \/ (filter approval_effect (events (do_step st) a)
          = [EvSaveConfig; EvRemoveHideTrayIconOverride;
             EvSendNotification IDS_WELCOME_NOTIFICATION]
          /\ filter is_SaveConfig (events (do_step st) a) = [EvSaveConfig]
          /\ (S (List.length (filter is_WelcomeApproved
                                (main_queue (state_after (do_step st) a))))
              <= List.length (filter is_WelcomeApproved (main_queue a)))%nat)).
    { clear. step_cases st a; cbn [raises_LicenseApproved];
        cbn [fst snd set_main_queue set_WelcomePage set_welcome main_queue];
        destruct_flags;
        cbn [fst snd set_main_queue set_WelcomePage set_welcome main_queue];
        rewrite ?filter_app, ?length_app, ?Shutdown_filter_none by reflexivity;
        cbn; first [left; repeat split; lia | right; repeat split; lia]. }
    destruct Hstep as [[-> [-> Hq]]|[-> [-> Hq]]].
    + exists k. cbn [app List.length filter]. repeat split.
      destruct (raises_LicenseApproved st); cbn [filter List.length] in *; lia.
    + exists (S k). cbn [repeat List.concat app List.length filter]. repeat split.
      destruct (raises_LicenseApproved st); cbn [filter List.length] in *; lia.
Qed.

Lemma handlers_kept_refl w : handlers_kept w w.
Proof. destruct w; cbn; auto 6. Qed.

Lemma handlers_kept_trans w1 w2 w3 :
  handlers_kept w1 w2 -> handlers_kept w2 w3 -> handlers_kept w1 w3.
Proof.
  destruct w1 as [c1|], w2 as [c2|], w3 as [c3|]; cbn; try tauto.
  intros (A1 & A2 & A3 & A4 & A5) (B1 & B2 & B3 & B4 & B5).
  repeat split; try congruence.
  destruct B5 as [B5|B5]; [rewrite B5; exact A5 | right; exact B5].
Qed.

Lemma do_step_handlers st a :
  handlers_kept (welcome a) (welcome (state_after (do_step st) a)).
Proof.
  step_cases st a;
    cbn [fst snd set_main_queue set_WelcomePage set_welcome set_Xaml welcome];
    try rewrite W; try apply handlers_kept_refl.
  - destruct (on_Closed c); cbn [fst snd set_main_queue welcome];
      rewrite W; apply handlers_kept_refl.
  - destruct (on_ConfigEditRequested c); cbn [fst snd set_main_queue welcome];
      rewrite W; apply handlers_kept_refl.
  - destruct (on_LicenseApproved c); cbn [fst snd set_main_queue set_welcome welcome];
      [|rewrite W; apply handlers_kept_refl].
    cbn. auto 6.
Qed.

Lemma run_steps_handlers steps : forall a,
  handlers_kept (welcome a) (welcome (state_after (run_steps steps) a)).
Proof.
  induction steps as [|st rest IH]; intros a; cbn [run_steps].
  - apply handlers_kept_refl.
  - rewrite state_after_bind.
    apply (handlers_kept_trans _ _ _ (do_step_handlers st a) (IH _)).
Qed.

(** X13.  No step builds a page where there is none, and on a page the
    only registration that ever changes is that of [Closed], which can
    only be revoked: the other four handlers stay as they were, in
    particular [LicenseApproved] stays registered after it has run, and a
    revoked [Closed] is never registered again. *)
Theorem only_the_Closed_registration_changes (steps : list step) (a : Application) :
  match welcome a with
  | None => welcome (state_after (run_steps steps) a) = None
  | Some c =>
      exists c',
        welcome (state_after (run_steps steps) a) = Some c'
        /\ on_LiberapayOpenRequested c' = on_LiberapayOpenRequested c
        /\ on_DiscordJoinRequested c' = on_DiscordJoinRequested c
        /\ on_ConfigEditRequested c' = on_ConfigEditRequested c
        /\ on_LicenseApproved c' = on_LicenseApproved c
        /\ (on_Closed c' = on_Closed c \/ on_Closed c' = None)
  end.
Proof.
  pose proof (run_steps_handlers steps a) as H. unfold handlers_kept in H.
  destruct (welcome a) as [c|];
    destruct (welcome (state_after (run_steps steps) a)) as [c'|];
    try contradiction; [exists c'; split; [reflexivity | exact H] | reflexivity].
Qed.

(** X14.  [ConfigurationChanged] tells the worker first and the tray
    window second and changes nothing in the application; nothing else
    tells them: over any steps the notices are that pair, once per
    callback of the configuration manager. *)
Theorem configuration_notices_come_in_pairs (steps : list step) (a : Application) :
  filter is_configuration_notice (events (run_steps steps) a)
  = flat_map (fun st => if is_ConfigFileChanged st
                        then [EvWorkerConfigurationChanged; EvAppWindowConfigurationChanged]
                        else []) steps
  /\ state_after ConfigurationChanged a = a.
Proof.
  split; [|reflexivity].
  revert a. induction steps as [|st rest IH]; intros a; [reflexivity|].
  cbn [run_steps flat_map]. rewrite events_bind, filter_app, IH. f_equal.
  clear. step_cases st a; cbn [is_ConfigFileChanged];
    cbn [fst snd set_main_queue set_WelcomePage set_welcome main_queue];
    destruct_flags;
    rewrite ?filter_app, ?Shutdown_filter_none by reflexivity; reflexivity.
Qed.




(** ** The order of the threads *)

From Stdlib Require Import Permutation.

Lemma forallb_Permutation {A} (p : A -> bool) l l' :
  Permutation l l' -> forallb p l = forallb p l'.
Proof.
  induction 1 as [|x l l' _ IH|x y l|l l' l'' _ IH1 _ IH2]; cbn.
  - reflexivity.
  - rewrite IH. reflexivity.
  - destruct (p x), (p y); reflexivity.
  - congruence.
Qed.

Lemma filter_Permutation {A} (p : A -> bool) l l' :
  Permutation l l' -> Permutation (filter p l) (filter p l').
Proof.
  induction 1 as [|x l l' _ IH|x y l|l l' l'' _ IH1 _ IH2]; cbn.
  - constructor.
  - destruct (p x); [constructor|]; exact IH.
  - destruct (p x), (p y); try apply Permutation_refl. constructor.
  - eapply Permutation_trans; eassumption.
Qed.

Lemma polled_windows_Permutation threads threads' :
  Permutation threads threads' ->
  Permutation (polled_windows threads) (polled_windows threads').
Proof.
  induction 1 as [|x l l' _ IH|x y l|l l' l'' _ IH1 _ IH2];
    unfold polled_windows in *; cbn [flat_map].
  - constructor.
  - apply Permutation_app_head. exact IH.
  - rewrite !app_assoc. apply Permutation_app_tail. apply Permutation_app_comm.
  - eapply Permutation_trans; eassumption.
Qed.

Lemma Shutdown_readings exitCode a :
  quit_codes (events (Shutdown exitCode) a)
  = (if forallb TryClose (polled_windows (m_Xaml a)) then [exitCode] else [])
  /\ brought_to_front (events (Shutdown exitCode) a)
     = map handle (filter refuses (polled_windows (m_Xaml a)))
  /\ asked_to_close (events (Shutdown exitCode) a)
     = map handle (polled_windows (m_Xaml a)).
Proof.
  rewrite Shutdown_events.
  unfold quit_codes, brought_to_front, asked_to_close. rewrite !reading_app.
  fold (quit_codes (flat_map poll_events_of (m_Xaml a))).
  fold (brought_to_front (flat_map poll_events_of (m_Xaml a))).
  fold (asked_to_close (flat_map poll_events_of (m_Xaml a))).
  rewrite poll_posts_nothing, poll_alerts_refusals, poll_asks_every_window.
  destruct (forallb TryClose (polled_windows (m_Xaml a))); cbn [flat_map exit_events app];
    rewrite ?app_nil_r; repeat split.
Qed.

(** X16.  What [Shutdown] decides does not depend on the order in which
    the threads are enumerated: for two enumerations of the same threads
    the quit message is posted in both or in neither, and the same
    windows are asked and the same brought to the front, up to order. *)
Theorem Shutdown_ignores_thread_order (exitCode : Z) (a a' : Application) :
  Permutation (m_Xaml a) (m_Xaml a') ->
  quit_codes (events (Shutdown exitCode) a) = quit_codes (events (Shutdown exitCode) a')
  /\ Permutation (asked_to_close (events (Shutdown exitCode) a))
                 (asked_to_close (events (Shutdown exitCode) a'))
  /\ Permutation (brought_to_front (events (Shutdown exitCode) a))
                 (brought_to_front (events (Shutdown exitCode) a')).
Proof.
  intros Hp. pose proof (polled_windows_Permutation _ _ Hp) as Hw.
  destruct (Shutdown_readings exitCode a) as [-> [-> ->]].
  destruct (Shutdown_readings exitCode a') as [-> [-> ->]].
  rewrite (forallb_Permutation TryClose _ _ Hw).
  split; [reflexivity|]. split.
  - apply Permutation_map. exact Hw.
  - apply Permutation_map, filter_Permutation. exact Hw.
Qed.

Lemma Shutdown_ignores_thread_order_witness :
  Permutation (m_Xaml (set_Xaml sample_threads sample_start))
              (m_Xaml (set_Xaml (rev sample_threads) sample_start))
  /\ quit_codes (events (Shutdown 0) (set_Xaml sample_threads sample_start))
     = quit_codes (events (Shutdown 0) (set_Xaml (rev sample_threads) sample_start))
  /\ brought_to_front (events (Shutdown 0) (set_Xaml (rev sample_threads) sample_start))
     = [102].
Proof.
  assert (H : Permutation (m_Xaml (set_Xaml sample_threads sample_start))
                          (m_Xaml (set_Xaml (rev sample_threads) sample_start)))
    by apply Permutation_rev.
  split; [exact H | split; [|reflexivity]].
  exact (proj1 (Shutdown_ignores_thread_order 0
                  (set_Xaml sample_threads sample_start)
                  (set_Xaml (rev sample_threads) sample_start) H)).
Defined.

(** ** Dismissal of the welcome page *)

Lemma run_steps_cons st rest a :
  state_after (run_steps (st :: rest)) a
  = state_after (run_steps rest) (state_after (do_step st) a)
  /\ events (run_steps (st :: rest)) a
     = events (do_step st) a ++ events (run_steps rest) (state_after (do_step st) a).
Proof. cbn [run_steps]. rewrite state_after_bind, events_bind. split; reflexivity. Qed.

Lemma raise_Closed_parts a :
  state_after (raise_event Closed) a
  = match Closed_registered a with
    | Some hasStartup => set_main_queue (main_queue a ++ [WelcomeClosed hasStartup]) a
    | None => a
    end
  /\ events (raise_event Closed) a = [].
Proof.
  unfold state_after, events, Closed_registered. rewrite raise_event_run.
  destruct (welcome a) as [c|]; [destruct (on_Closed c)|]; split; reflexivity.
Qed.

Lemma Shutdown_events_threads exitCode a a' :
  m_Xaml a = m_Xaml a' -> events (Shutdown exitCode) a = events (Shutdown exitCode) a'.
Proof. intros H. rewrite !Shutdown_events, H. reflexivity. Qed.

(** The dismissal, from the building of the page on: the main thread
    caches the handle, [Closed] is raised, the main thread runs the
    callable. *)
Lemma dismissal_run (operation : IAsyncOperation) (host : HWND) (a0 : Application) :
  main_queue a0 = [] ->
  let requested := match operation with Some _ => true | None => false end in
  let built := state_after (CreateWelcomePage operation host) a0 in
  Closed_registered built = Some requested
  /\ main_queue (state_after (raise_event Closed) built)
     = [SetWelcomePage host; WelcomeClosed requested]
  /\ events (run_steps [RunMainTask; Raise Closed; RunMainTask]) built
     = (if requested then [EvStartupDisable] else [])
       ++ [EvDeleteConfigFile] ++ events (Shutdown 1) a0
  /\ m_WelcomePage (state_after (run_steps [RunMainTask; Raise Closed; RunMainTask]) built)
     = nullptr
  /\ main_queue (state_after (run_steps [RunMainTask; Raise Closed; RunMainTask]) built)
     = [].
Proof.
  intros Hq. cbv zeta.
  assert (Hb : state_after (CreateWelcomePage operation host) a0
               = {| m_WelcomePage := m_WelcomePage a0;
                    main_queue := [SetWelcomePage host];
                    welcome := Some (configured
                                       match operation with Some _ => true | None => false end);
                    m_Xaml := m_Xaml a0 |}).
  { unfold state_after. rewrite CreateWelcomePage_run, Hq. destruct operation; reflexivity. }
  rewrite Hb. set (built := {| m_WelcomePage := _ |}).
  set (requested := match operation with Some _ => true | None => false end) in *.
  split; [reflexivity|]. split.
  { destruct (raise_Closed_parts built) as [-> _]. reflexivity. }
  (* the main thread caches the handle *)
  destruct (run_steps_cons RunMainTask [Raise Closed; RunMainTask] built) as [-> ->].
  destruct (do_RunMainTask_parts built) as [-> ->].
  cbn [built main_queue]. unfold state_after at 1 3 5, events at 1.
  rewrite run_SetWelcomePage. cbn [fst snd app].
  set (cached := set_WelcomePage host _).
  (* Closed is raised *)
  destruct (run_steps_cons (Raise Closed) [RunMainTask] cached) as [-> ->].
  cbn [do_step]. destruct (raise_Closed_parts cached) as [-> ->].
  change (Closed_registered cached) with (Some requested). cbn [app].
  set (queued := set_main_queue _ cached).
  (* the main thread runs the callable *)
  destruct (run_steps_cons RunMainTask [] queued) as [-> ->].
  destruct (do_RunMainTask_parts queued) as [-> ->].
  cbn [queued set_main_queue main_queue run_steps].
  change (main_queue cached) with (@nil main_task). cbn [app].
  assert (Hc : events (run_main_task (WelcomeClosed requested)) (set_main_queue [] queued)
               = (if requested then [EvStartupDisable] else [])
                 ++ [EvDeleteConfigFile] ++ events (Shutdown 1) a0).
  { unfold events at 1. rewrite run_WelcomeClosed. cbn [snd].
    rewrite (Shutdown_events_threads 1 _ a0) by reflexivity. reflexivity. }
  assert (Hs : state_after (run_main_task (WelcomeClosed requested)) (set_main_queue [] queued)
               = set_WelcomePage nullptr (set_main_queue [] queued)).
  { unfold state_after. rewrite run_WelcomeClosed. reflexivity. }
  rewrite Hc, Hs. unfold state_after, events. cbn [ret fst snd].
  rewrite app_nil_r. repeat split.
Qed.

(** C7 (amended).  When [Closed] is raised on the welcome page without a
    prior approval, the handler only queues a callable for the main
    thread; that callable clears the cached handle, calls
    [m_Startup.Disable()] exactly when the operation given to
    [CreateWelcomePage] was not null, deletes the configuration file and
    runs [Shutdown(1)], and nothing else.  The quit message with 1 is
    posted, and [Run] returns 1 on reading it, exactly when every polled
    window agrees to close; when one refuses, the configuration file is
    deleted all the same and no quit message is posted. *)
Theorem Closed_dismissal_shuts_down_with_1
    (operation : IAsyncOperation) (host : HWND) (a0 : Application) :
  main_queue a0 = [] ->
  let requested := match operation with Some _ => true | None => false end in
  let built := state_after (CreateWelcomePage operation host) a0 in
  let dismissal := run_steps [RunMainTask; Raise Closed; RunMainTask] in
  let evs := events dismissal built in
  let permitted := forallb TryClose (polled_windows (m_Xaml a0)) in
  Closed_registered built = Some requested
  /\ events (raise_event Closed) built = []
  /\ main_queue (state_after (raise_event Closed) built)
     = [SetWelcomePage host; WelcomeClosed requested]
  /\ evs = (if requested then [EvStartupDisable] else [])
           ++ [EvDeleteConfigFile] ++ events (Shutdown 1) a0
  /\ (In EvStartupDisable evs <-> operation <> None)
  /\ m_WelcomePage (state_after dismissal built) = nullptr
  /\ main_queue (state_after dismissal built) = []
  /\ quit_codes evs = (if permitted then [1] else [])
  /\ (In (EvPostQuitMessage 1) evs <-> permitted = true)
  /\ (forall PreTranslateMessage before after script,
        Forall (fun m => message m <> WM_QUIT) before ->
        snd (Run PreTranslateMessage
               ({| wait_result := WAIT_OBJECT_0;
                   pending := before ++ map quit_message (quit_codes evs) ++ after |}
                :: script))
        = if permitted then Some 1
          else snd (Run PreTranslateMessage
                      ({| wait_result := WAIT_OBJECT_0; pending := before ++ after |}
                       :: script))).
Proof.
  intros Hq. cbv zeta.
  destruct (dismissal_run operation host a0 Hq) as (Hreg & Hqueue & Hev & Hh & Hmq).
  cbv zeta in Hreg, Hqueue, Hev, Hh, Hmq.
  assert (Hcodes : quit_codes
                     (events (run_steps [RunMainTask; Raise Closed; RunMainTask])
                        (state_after (CreateWelcomePage operation host) a0))
                   = if forallb TryClose (polled_windows (m_Xaml a0)) then [1] else []).
  { rewrite Hev. unfold quit_codes. rewrite !reading_app, Shutdown_events, reading_app.
    fold (quit_codes (flat_map poll_events_of (m_Xaml a0))).
    rewrite poll_posts_nothing.
    destruct operation, (forallb TryClose (polled_windows (m_Xaml a0))); reflexivity. }
  split; [exact Hreg|]. split; [apply raise_Closed_parts|]. split; [exact Hqueue|].
  split; [exact Hev|]. split; [|split; [exact Hh|split; [exact Hmq|split; [exact Hcodes|split]]]].
  - rewrite Hev. split.
    + intros Hin. destruct operation; [discriminate|].
      cbn in Hin. destruct Hin as [Hin|Hin]; [discriminate|].
      assert (Hsd : Forall (fun e => e <> EvStartupDisable) (events (Shutdown 1) a0))
        by (apply Shutdown_events_Forall; intros; discriminate).
      rewrite Forall_forall in Hsd. elim (Hsd _ Hin). reflexivity.
    + intros Hop. destruct operation; [left; reflexivity | contradiction].
  - split.
    + intros Hin.
      assert (Hc : In 1 (quit_codes
                           (events (run_steps [RunMainTask; Raise Closed; RunMainTask])
                              (state_after (CreateWelcomePage operation host) a0)))).
      { unfold quit_codes. apply in_flat_map. exists (EvPostQuitMessage 1).
        split; [exact Hin | left; reflexivity]. }
      rewrite Hcodes in Hc.
      destruct (forallb TryClose (polled_windows (m_Xaml a0))); [reflexivity | destruct Hc].
    + intros Hp. rewrite Hev, Shutdown_events, Hp.
      apply in_or_app. right. apply in_or_app. right. apply in_or_app. right.
      cbn. auto.
  - intros PreTranslateMessage before after script Hb. rewrite Hcodes.
    destruct (forallb TryClose (polled_windows (m_Xaml a0))); [|reflexivity].
    cbn [map app].
    rewrite (Run_at_quit PreTranslateMessage before after (quit_message 1) script Hb eq_refl).
    reflexivity.
Qed.

(** C7 at a sample: a page built with a startup operation, two threads
    whose windows agree; the dismissal disables auto-start, deletes the
    configuration file, polls both windows and posts the quit message
    with 1. *)
Lemma Closed_dismissal_shuts_down_with_1_witness :
  let a0 := set_Xaml sample_agreeing_threads sample_start in
  let built := state_after (CreateWelcomePage (Some (AsyncOp 0)) 77) a0 in
  main_queue a0 = []
  /\ events (run_steps [RunMainTask; Raise Closed; RunMainTask]) built
     = [EvStartupDisable; EvDeleteConfigFile;
        EvLock 1; EvResumeForeground (ThreadDispatcher 1); EvTryClose 101; EvUnlock 1;
        EvLock 5; EvResumeForeground (ThreadDispatcher 5); EvTryClose 105; EvUnlock 5;
        EvResumeForeground MainDispatcherQueue; EvShutdownQueueAsync; EvPostQuitMessage 1]
  /\ quit_codes (events (run_steps [RunMainTask; Raise Closed; RunMainTask]) built) = [1].
Proof.
  cbv zeta. split; [reflexivity | split; [reflexivity|]].
  exact (proj1 (proj2 (proj2 (proj2 (proj2 (proj2 (proj2 (proj2
           (Closed_dismissal_shuts_down_with_1 (Some (AsyncOp 0)) 77
              (set_Xaml sample_agreeing_threads sample_start) eq_refl))))))))).
Defined.

(** C7 as first stated fails where a window refuses to close: over the
    sample threads a dismissal deletes the configuration file but posts
    no quit message, so the loop, reading what was posted, does not
    return: there is no exit code 1. *)
Lemma Closed_dismissal_with_a_refusal_posts_no_quit :
  let a0 := set_Xaml sample_threads sample_start in
  let built := state_after (CreateWelcomePage None 77) a0 in
  let evs := events (run_steps [RunMainTask; Raise Closed; RunMainTask]) built in
  Closed_registered built = Some false
  /\ evs = [EvDeleteConfigFile;
            EvLock 1; EvResumeForeground (ThreadDispatcher 1); EvTryClose 101; EvUnlock 1;
            EvLock 2; EvResumeForeground (ThreadDispatcher 2); EvTryClose 102;
            EvSetForegroundWindow 102; EvUnlock 2;
            EvLock 3; EvUnlock 3;
            EvLock 4; EvUnlock 4;
            EvLock 5; EvResumeForeground (ThreadDispatcher 5); EvTryClose 105; EvUnlock 5]
  /\ quit_codes evs = []
  /\ snd (Run sample_PreTranslateMessage
            [ {| wait_result := WAIT_OBJECT_0;
                 pending := map quit_message (quit_codes evs) |} ]) = None.
Proof. cbv zeta. repeat split. Qed.
